(** * Realtime message protocol layer: authentication, connection registry,
      validators and record/envelope transformers

    A shallow embedding of [backend/websocket_auth.ts] and of the final
    [unified_types.ts] (the implementation that follows the TDD stub), and the
    properties of the natural-language specification stated against it.

    Conventions of the embedding:
    - a JavaScript string is the list of its UTF-16 code units;
    - a JavaScript number is NaN, an infinity or a rational (every finite
      double is a rational and [<], [>] on doubles agree with the order of
      the rationals);
    - values of type [any] are embedded in [Js.Value];
    - the builtins [Date] and [URL] are a parameter, the class [Platform];
    - the [Map] of the connection manager is a [gmap];
    - the awaited call to the identity provider is a node of [Async]. *)

From Stdlib Require Import ZArith NArith QArith List String Ascii Bool Lia.
From stdpp Require Import base option list gmap.
Import ListNotations.

Close Scope Q_scope.
Local Open Scope list_scope.

(* ===================================================================== *)
(** * JavaScript values *)
(* ===================================================================== *)

Module Js.

(** A string is the sequence of its UTF-16 code units. *)
Definition Str := list N.

(** The code units of a literal (one unit per character of the literal;
    the literals of the sources are ASCII). *)
Definition js (s : string) : Str :=
  List.map N_of_ascii (list_ascii_of_string s).
Arguments js : simpl never.

(** [a === b] on strings. *)
Fixpoint eqb (a b : Str) : bool :=
  match a, b with
  | [], [] => true
  | x :: a', y :: b' => N.eqb x y && eqb a' b'
  | _, _ => false
  end.

(** [a < b] on strings: lexicographic on code units, a proper prefix is
    smaller. *)
Fixpoint ltb (a b : Str) : bool :=
  match a, b with
  | _, [] => false
  | [], _ :: _ => true
  | x :: a', y :: b' =>
      if N.ltb x y then true
      else if N.eqb x y then ltb a' b'
      else false
  end.

(** WhiteSpace and LineTerminator code points, the characters
    [String.prototype.trim] strips: TAB, LF, VT, FF, CR, SP, NBSP, U+1680,
    U+2000..U+200A, LS, PS, U+202F, U+205F, U+3000, BOM. *)
Definition is_whitespace (c : N) : bool :=
  ((9 <=? c) && (c <=? 13) || (c =? 32) || (c =? 160) || (c =? 5760)
   || (8192 <=? c) && (c <=? 8202) || (c =? 8232) || (c =? 8233)
   || (c =? 8239) || (c =? 8287) || (c =? 12288) || (c =? 65279))%N.

Fixpoint trimStart (s : Str) : Str :=
  match s with
  | c :: s' => if is_whitespace c then trimStart s' else s
  | [] => []
  end.

Definition trimEnd (s : Str) : Str := rev (trimStart (rev s)).

(** [s.trim()] *)
Definition trim (s : Str) : Str := trimEnd (trimStart s).

(** [a + b] on strings. *)
Definition concat (a b : Str) : Str := a ++ b.

(** Numbers. *)
Inductive Num :=
| NaN
| Infinity (negative : bool)
| Finite (q : Q).

Definition Qltb (a b : Q) : bool := negb (Qle_bool b a).

(** [a < b] on numbers; every comparison with NaN is false. *)
Definition num_ltb (a b : Num) : bool :=
  match a, b with
  | NaN, _ | _, NaN => false
  | Infinity true, Infinity true => false
  | Infinity true, _ => true
  | _, Infinity true => false
  | Infinity false, _ => false
  | Finite _, Infinity false => true
  | Finite x, Finite y => Qltb x y
  end.

Definition num_of_Z (z : Z) : Num := Finite (inject_Z z).

(** A number with an integral value ([Number.isInteger]). *)
Definition is_integer (n : Num) : bool :=
  match n with
  | Finite q => (Qnum q mod Zpos (Qden q) =? 0)%Z
  | _ => false
  end.

(** Values of type [any]: the primitives, arrays and plain objects (own
    data properties only, in insertion order; a repeated name reads as its
    first entry). An array has its elements and, being an object, the named
    properties that were added to it ([props], empty for an array literal
    and for an array out of [JSON.parse]). Arrays and objects carry their
    reference, which is what [===] compares. Functions, symbols and bigints
    are left out, as are accessor properties. *)
#[warnings="-register-all"]
Inductive Value :=
| Undefined
| Null
| Boolean (b : bool)
| Number (n : Num)
| String (s : Str)
| Array (ref : positive) (elems : list Value) (props : list (Str * Value))
| Object (ref : positive) (props : list (Str * Value)).

(** [typeof v] *)
Definition typeof (v : Value) : Str :=
  match v with
  | Undefined => js "undefined"
  | Null => js "object"
  | Boolean _ => js "boolean"
  | Number _ => js "number"
  | String _ => js "string"
  | Array _ _ _ => js "object"
  | Object _ _ => js "object"
  end.

(** ToBoolean: [undefined], [null], [false], [0], [NaN] and the empty
    string are falsy. *)
Definition truthy (v : Value) : bool :=
  match v with
  | Undefined | Null => false
  | Boolean b => b
  | Number NaN => false
  | Number (Infinity _) => true
  | Number (Finite q) => negb (Qeq_bool q 0)
  | String s => negb (eqb s [])
  | Array _ _ _ | Object _ _ => true
  end.

Definition num_eqb (a b : Num) : bool :=
  match a, b with
  | Finite x, Finite y => Qeq_bool x y
  | Infinity s, Infinity t => Bool.eqb s t
  | _, _ => false
  end.

(** [a === b] *)
Definition strict_eq (a b : Value) : bool :=
  match a, b with
  | Undefined, Undefined => true
  | Null, Null => true
  | Boolean x, Boolean y => Bool.eqb x y
  | Number x, Number y => num_eqb x y
  | String x, String y => eqb x y
  | Array r _ _, Array r' _ _ => Pos.eqb r r'
  | Object r _, Object r' _ => Pos.eqb r r'
  | _, _ => false
  end.

Fixpoint assoc (name : Str) (props : list (Str * Value)) : Value :=
  match props with
  | [] => Undefined
  | (k, v) :: rest => if eqb k name then v else assoc name rest
  end.

(** [v.name] for the property names the validators read (none of them is
    an index or a method name). Reading a property of [undefined] or [null]
    throws in JavaScript; every read in the sources is guarded by a
    truthiness test, so [get] is only ever applied to truthy values. *)
Definition get (v : Value) (name : string) : Value :=
  match v with
  | Object _ props => assoc (js name) props
  | Array _ elems props =>
      if eqb (js name) (js "length")
      then Number (num_of_Z (Z.of_nat (List.length elems)))
      else assoc (js name) props
  | String s =>
      if eqb (js name) (js "length")
      then Number (num_of_Z (Z.of_nat (List.length s))) else Undefined
  | _ => Undefined
  end.

(** What passes the guard [!v || typeof v !== "object"] of the validators:
    the arrays and the objects. *)
Definition object_shaped (v : Value) : bool :=
  negb (negb (truthy v) || negb (eqb (typeof v) (js "object"))).

(** [Array.isArray(v)] *)
Definition isArray (v : Value) : bool :=
  match v with Array _ _ _ => true | _ => false end.

(** [list.includes(v)] for a list of string literals (SameValueZero). *)
Definition includes (l : list string) (v : Value) : bool :=
  match v with
  | String s => existsb (fun x => eqb (js x) s) l
  | _ => false
  end.

End Js.

(* ===================================================================== *)
(** * Regular expressions *)
(* ===================================================================== *)

(** The regular expressions of the sources that repeat a class have no
    captures, back references or assertions other than [^] and [$] around
    the whole pattern, so [regex.test(s)] is membership of [s] in the
    language of the pattern. Membership is decided by derivatives. *)
Module Regex.

Inductive Re :=
| Empty                     (* matches nothing *)
| Eps                       (* matches the empty string *)
| Class (p : N -> bool)     (* one code unit of a class *)
| Alt (a b : Re)
| Seq (a b : Re)
| Star (a : Re).

(** [a+] *)
Definition Plus (a : Re) : Re := Seq a (Star a).

Fixpoint nullable (r : Re) : bool :=
  match r with
  | Empty => false
  | Eps => true
  | Class _ => false
  | Alt a b => nullable a || nullable b
  | Seq a b => nullable a && nullable b
  | Star _ => true
  end.

Fixpoint deriv (c : N) (r : Re) : Re :=
  match r with
  | Empty => Empty
  | Eps => Empty
  | Class p => if p c then Eps else Empty
  | Alt a b => Alt (deriv c a) (deriv c b)
  | Seq a b =>
      if nullable a then Alt (Seq (deriv c a) b) (deriv c b)
      else Seq (deriv c a) b
  | Star a => Seq (deriv c a) (Star a)
  end.

(** [/^r$/.test(s)] *)
Fixpoint test (r : Re) (s : Js.Str) : bool :=
  match s with
  | [] => nullable r
  | c :: s' => test (deriv c r) s'
  end.

(** The language of a pattern. *)
Inductive Matches : Re -> Js.Str -> Prop :=
| MEps : Matches Eps []
| MClass p c : p c = true -> Matches (Class p) [c]
| MAltL a b s : Matches a s -> Matches (Alt a b) s
| MAltR a b s : Matches b s -> Matches (Alt a b) s
| MSeq a b s t : Matches a s -> Matches b t -> Matches (Seq a b) (s ++ t)
| MStarNil a : Matches (Star a) []
| MStarCons a s t : Matches a s -> Matches (Star a) t -> Matches (Star a) (s ++ t).

End Regex.

(* ===================================================================== *)
(** * Platform builtins *)
(* ===================================================================== *)

(** The builtins the sources call. They are not code of the repository, so
    the development is parametric in them. *)
Class Platform := {
  (** [new Date(s).getTime()]; [None] is NaN (an invalid date). *)
  Date_parse : Js.Str -> option Z;
  (** [d.toISOString()] of the date with the given time value. *)
  Date_toISOString : Z -> Js.Str;
  (** [new URL(url).searchParams] as its list of name/value pairs; [None]
      when the constructor throws (malformed URL). *)
  URL_searchParams : Js.Str -> option (list (Js.Str * Js.Str))
}.

(** [searchParams.get(name)]: the value of the first pair with that name,
    [null] when there is none. *)
Fixpoint searchParams_get (name : Js.Str) (params : list (Js.Str * Js.Str))
  : option Js.Str :=
  match params with
  | [] => None
  | (k, v) :: rest => if Js.eqb k name then Some v else searchParams_get name rest
  end.

(* ===================================================================== *)
(** * backend/websocket_auth.ts *)
(* ===================================================================== *)

Module WebsocketAuth.
Import Js.

(** [type Result<T, E = string>] *)
Inductive Result (T E : Type) :=
| Ok (value : T)
| Err (error : E).
Arguments Ok {T E} value.
Arguments Err {T E} error.

(** [interface AuthData] *)
Record AuthData := { userId : Str; email : Str }.

Definition AuthResult := Result AuthData Str.

(** What [supabase.auth.getUser(jwt)] settles to: the promise resolves to
    [{ data: { user }, error }], with [user] and [error] an object or
    [null], or the call throws (a response of another shape makes the
    property reads throw, which the same [catch] handles). *)
Record User := { user_id : Str; user_email : Str }.
Record ProviderError := { message : Str }.
Record UserResponse := { data_user : option User; error : option ProviderError }.

(** A thrown value: an [Error] with its message, or any other value with
    its [String(...)] rendering. *)
Inductive Thrown :=
| ThrownError (message : Str)
| ThrownOther (rendering : Str).

Inductive Settled :=
| Resolved (response : UserResponse)
| Threw (e : Thrown).

(** An [async] computation whose only suspension point is the awaited call
    to the identity provider. *)
Inductive Async (A : Type) :=
| Return (a : A)
| AwaitGetUser (jwt : Str) (k : Settled -> Async A).
Arguments Return {A} a.
Arguments AwaitGetUser {A} jwt k.

(** Running a computation against a provider; the second component is the
    log of the tokens the provider was called with, in call order. *)
Fixpoint run {A} (getUser : Str -> Settled) (p : Async A) : A * list Str :=
  match p with
  | Return a => (a, [])
  | AwaitGetUser jwt k =>
      let (a, calls) := run getUser (k (getUser jwt)) in (a, jwt :: calls)
  end.

(** [WebSocketAuthenticator.validateJWT] *)
Definition validateJWT (jwt : Str) : Async AuthResult :=
  if negb (truthy (String jwt)) || eqb (trim jwt) (js "") then
    Return (Err (js "Missing JWT token"))
  else
    AwaitGetUser jwt (fun settled =>
      match settled with
      | Resolved {| data_user := user; error := error |} =>
          match error with
          | Some e => Return (Err (message e))
          | None =>
              match user with
              | None => Return (Err (js "No user found for token"))
              | Some u =>
                  Return (Ok {| userId := user_id u; email := user_email u |})
              end
          end
      | Threw e =>
          Return (Err (concat (js "JWT validation failed: ")
                         match e with
                         | ThrownError m => m
                         | ThrownOther s => s
                         end))
      end).

(** [WebSocketAuthenticator.extractJWTFromURL] *)
Definition extractJWTFromURL `{Platform} (url : Str) : option Str :=
  match URL_searchParams url with
  | Some params => searchParams_get (js "token") params
  | None => None
  end.

(** The two failures of the specification, as the source represents them:
    both are [{ ok: false, error }], told apart by the error string. *)
Definition MissingToken : AuthResult := Err (js "Missing JWT token").
Definition Rejected (reason : Str) : AuthResult := Err reason.

(** ** ConnectionManager *)

(** A [WebSocket] is an object; the embedding keeps its reference. Every
    object is truthy, so [get(userId) || null] is [get(userId)] with
    [undefined] turned into [null]: both are [None]. *)
Definition WebSocket := positive.

(** The private field [connections : Map<string, WebSocket>]. *)
Abbreviation Connections := (gmap Str WebSocket).

(** Methods thread the manager's state. *)
Definition Method (A : Type) : Type := Connections -> A * Connections.

Definition pure {A} (a : A) : Method A := fun m => (a, m).
Definition andThen {A B} (x : Method A) (f : A -> Method B) : Method B :=
  fun m => let (a, m') := x m in f a m'.

Definition addConnection (userId : Str) (webSocket : WebSocket) : Method unit :=
  fun connections => (tt, <[userId := webSocket]> connections).

Definition removeConnection (userId : Str) : Method unit :=
  fun connections => (tt, delete userId connections).

Definition hasConnection (userId : Str) : Method bool :=
  fun connections => (bool_decide (is_Some (connections !! userId)), connections).

Definition getConnection (userId : Str) : Method (option WebSocket) :=
  fun connections => (connections !! userId, connections).

Definition getAllConnections : Method Connections :=
  fun connections => (connections, connections).

#[export] Instance Method_ret : MRet Method := @pure.
#[export] Instance Method_bind : MBind Method := fun A B f x => andThen x f.

(** The value of a call to a [void] method is [undefined]: a caller that
    reads it as "the displaced connection, if any" gets none. *)
Definition returnedConnection (result : unit) : option WebSocket := None.

(** Client code of the manager, used to state its properties.

    [replaceThenLookup]: register [c1], register [c2] for the same user
    keeping what the second call returns, then look the user up. *)
Definition replaceThenLookup (u : Str) (c1 c2 : WebSocket)
  : Method (option WebSocket * option WebSocket) :=
  addConnection u c1;;
  previous ← addConnection u c2;
  current ← getConnection u;
  mret (returnedConnection previous, current).

(** [staleTeardown]: [c1] is displaced by [c2], then the teardown of [c1]
    runs. [removeConnection] takes the user id only, so that is the whole
    of what the teardown can pass. *)
Definition staleTeardown (u : Str) (c1 c2 : WebSocket)
  : Method (option WebSocket * bool) :=
  addConnection u c1;;
  addConnection u c2;;
  removeConnection u;;
  current ← getConnection u;
  present ← hasConnection u;
  mret (current, present).

End WebsocketAuth.

(* ===================================================================== *)
(** * unified_types.ts *)
(* ===================================================================== *)

Module UnifiedTypes.
Import Js.

Record ValidationResult := { isValid : bool; errors : list Str }.

(** ** Database enums *)

Inductive FriendshipStatus := pending | accepted | blocked.
Inductive GameType := tic_tac_toe.
(** ["accepted"] is a member of two of the unions; as a session status it is
    [session_accepted] here. *)
Inductive SessionStatus := invited | session_accepted | in_progress | completed.
Inductive MessageType := text | image | system.

Inductive RealtimeMessageType :=
| chat | game_move | game_invite | game_accept | game_complete
| friend_request | friend_accept | presence_update | typing_indicator
| connection_status.

(** ** Database record interfaces and real-time payloads

    One module per interface, so that the fields keep their names. A field
    of type [string | null] or an optional field is an [option]. *)

Module UserProfile.
Record t := {
  id : Str; email : Str; display_name : Str; avatar_url : option Str;
  created_at : Str; updated_at : Str }.
End UserProfile.

Module Friendship.
Record t := {
  id : Str; user1_id : Str; user2_id : Str; status : FriendshipStatus;
  created_at : Str; accepted_at : option Str }.
End Friendship.

Module GameSession.
Record t := {
  id : Str; player1_id : Str; player2_id : Str; game_type : GameType;
  status : SessionStatus; winner_id : option Str;
  created_at : Str; updated_at : Str; completed_at : option Str }.
End GameSession.

Module ChatMessageRecord.
Record t := {
  id : Str; sender_id : Str; receiver_id : Str; content : Str;
  message_type : MessageType; created_at : Str; read_at : option Str }.
End ChatMessageRecord.

(** [Omit<ChatMessageRecord, 'created_at' | 'read_at'>] *)
Module ChatMessageDraft.
Record t := {
  id : Str; sender_id : Str; receiver_id : Str; content : Str;
  message_type : MessageType }.
End ChatMessageDraft.

Module ChatPayload.
Record t := { content : Str; receiverId : Str; messageType : MessageType }.
End ChatPayload.

Module GameInvitePayload.
Record t := { invitedUserId : Str; gameType : GameType; sessionId : Str }.
End GameInvitePayload.

Module FriendRequestPayload.
Record t := { targetUserId : Str; requesterId : Str; requesterName : Str }.
End FriendRequestPayload.

Module RealtimeMessage.
Record t (TPayload : Type) := {
  type : RealtimeMessageType; payload : TPayload; userId : Str;
  timestamp : Str; messageId : option Str }.
Arguments type {TPayload} _.
Arguments payload {TPayload} _.
Arguments userId {TPayload} _.
Arguments timestamp {TPayload} _.
Arguments messageId {TPayload} _.
End RealtimeMessage.

Module TicTacToeGame.
Record t := { session_id : Str; board_state : list Str; current_turn : Str }.
End TicTacToeGame.

Module TicTacToeMoveData.
Record t := { position : Num; player : Str; boardState : list Str }.
End TicTacToeMoveData.

(** [moveData: TicTacToeMoveData | any]; the transformer builds the first. *)
Module GameMovePayload.
Record t := { sessionId : Str; gameType : GameType; moveData : TicTacToeMoveData.t }.
End GameMovePayload.

(** ** MessageTransformer *)

Module MessageTransformer.

Definition chatRecordToRealtime (record : ChatMessageRecord.t)
  : RealtimeMessage.t ChatPayload.t :=
  {| RealtimeMessage.type := chat;
     RealtimeMessage.payload :=
       {| ChatPayload.content := ChatMessageRecord.content record;
          ChatPayload.receiverId := ChatMessageRecord.receiver_id record;
          ChatPayload.messageType := ChatMessageRecord.message_type record |};
     RealtimeMessage.userId := ChatMessageRecord.sender_id record;
     RealtimeMessage.timestamp := ChatMessageRecord.created_at record;
     RealtimeMessage.messageId := Some (ChatMessageRecord.id record) |}.

Definition realtimeChatToRecord (message : RealtimeMessage.t ChatPayload.t)
    (generatedId : Str) : ChatMessageDraft.t :=
  {| ChatMessageDraft.id := generatedId;
     ChatMessageDraft.sender_id := RealtimeMessage.userId message;
     ChatMessageDraft.receiver_id :=
       ChatPayload.receiverId (RealtimeMessage.payload message);
     ChatMessageDraft.content :=
       ChatPayload.content (RealtimeMessage.payload message);
     ChatMessageDraft.message_type :=
       ChatPayload.messageType (RealtimeMessage.payload message) |}.

Definition gameSessionToRealtimeInvite (session : GameSession.t)
  : RealtimeMessage.t GameInvitePayload.t :=
  {| RealtimeMessage.type := game_invite;
     RealtimeMessage.payload :=
       {| GameInvitePayload.invitedUserId := GameSession.player2_id session;
          GameInvitePayload.gameType := GameSession.game_type session;
          GameInvitePayload.sessionId := GameSession.id session |};
     RealtimeMessage.userId := GameSession.player1_id session;
     RealtimeMessage.timestamp := GameSession.created_at session;
     RealtimeMessage.messageId := Some (GameSession.id session) |}.

(** [new Date().toISOString()] reads the clock: [now] is the time value it
    reads. *)
Definition ticTacToeGameToRealtimeMove `{Platform} (now : Z)
    (game : TicTacToeGame.t) (lastMove : Num)
  : RealtimeMessage.t GameMovePayload.t :=
  {| RealtimeMessage.type := game_move;
     RealtimeMessage.payload :=
       {| GameMovePayload.sessionId := TicTacToeGame.session_id game;
          GameMovePayload.gameType := tic_tac_toe;
          GameMovePayload.moveData :=
            {| TicTacToeMoveData.position := lastMove;
               TicTacToeMoveData.player := TicTacToeGame.current_turn game;
               TicTacToeMoveData.boardState := TicTacToeGame.board_state game |} |};
     RealtimeMessage.userId := TicTacToeGame.current_turn game;
     RealtimeMessage.timestamp := Date_toISOString now;
     RealtimeMessage.messageId := None |}.

Definition friendshipToRealtimeRequest (friendship : Friendship.t)
    (requesterProfile : UserProfile.t)
  : RealtimeMessage.t FriendRequestPayload.t :=
  {| RealtimeMessage.type := friend_request;
     RealtimeMessage.payload :=
       {| FriendRequestPayload.targetUserId := Friendship.user2_id friendship;
          FriendRequestPayload.requesterId := Friendship.user1_id friendship;
          FriendRequestPayload.requesterName :=
            UserProfile.display_name requesterProfile |};
     RealtimeMessage.userId := Friendship.user1_id friendship;
     RealtimeMessage.timestamp := Friendship.created_at friendship;
     RealtimeMessage.messageId := Some (Friendship.id friendship) |}.

End MessageTransformer.

(** [{ ...draft, created_at, read_at }]: the instants a draft lacks are
    filled in by whoever stores it (the chat workflow of the test suite takes
    the envelope's timestamp and [null]). *)
Definition completeDraft (draft : ChatMessageDraft.t) (created_at : Str)
    (read_at : option Str) : ChatMessageRecord.t :=
  {| ChatMessageRecord.id := ChatMessageDraft.id draft;
     ChatMessageRecord.sender_id := ChatMessageDraft.sender_id draft;
     ChatMessageRecord.receiver_id := ChatMessageDraft.receiver_id draft;
     ChatMessageRecord.content := ChatMessageDraft.content draft;
     ChatMessageRecord.message_type := ChatMessageDraft.message_type draft;
     ChatMessageRecord.created_at := created_at;
     ChatMessageRecord.read_at := read_at |}.

(** ** Utility functions *)

Definition createRealtimeMessage `{Platform} (now : Z) {T : Type}
    (type : RealtimeMessageType) (payload : T) (userId : Str)
    (messageId : option Str) : RealtimeMessage.t T :=
  {| RealtimeMessage.type := type;
     RealtimeMessage.payload := payload;
     RealtimeMessage.userId := userId;
     RealtimeMessage.timestamp := Date_toISOString now;
     RealtimeMessage.messageId := messageId |}.

Definition ensureFriendshipOrdering (user1Id user2Id : Str) : Str * Str :=
  if ltb user1Id user2Id then (user1Id, user2Id) else (user2Id, user1Id).

Definition getFriendshipQueryPairs (user1 user2 : Str) : list (Str * Str) :=
  [(user1, user2); (user2, user1)].

(** ** Validation helpers *)

(** A regular expression that is a sequence of one-character classes
    between [^] and [$]. *)
Inductive CharClass :=
| Hex        (* [0-9a-f] under the i flag *)
| Dash       (* - *)
| Digit1to5  (* [1-5] *)
| Variant.   (* [89ab] under the i flag *)

Definition between (lo hi c : N) : bool := ((lo <=? c) && (c <=? hi))%N.

Definition class_test (cl : CharClass) (c : N) : bool :=
  match cl with
  | Hex => between 48 57 c || between 97 102 c || between 65 70 c
  | Dash => (c =? 45)%N
  | Digit1to5 => between 49 53 c
  | Variant => between 56 57 c || between 97 98 c || between 65 66 c
  end.

Fixpoint regex_test (pattern : list CharClass) (s : Str) : bool :=
  match pattern, s with
  | [], [] => true
  | cl :: pattern', c :: s' => class_test cl c && regex_test pattern' s'
  | _, _ => false
  end.

(** [/^[0-9a-f]{8}-[0-9a-f]{4}-[1-5][0-9a-f]{3}-[89ab][0-9a-f]{3}-[0-9a-f]{12}$/i] *)
Definition uuidRegex : list CharClass :=
  repeat Hex 8 ++ [Dash] ++ repeat Hex 4 ++ [Dash] ++
  [Digit1to5] ++ repeat Hex 3 ++ [Dash] ++
  [Variant] ++ repeat Hex 3 ++ [Dash] ++ repeat Hex 12.

Definition isValidUUID (uuid : Str) : bool := regex_test uuidRegex uuid.

Definition isValidISODate `{Platform} (dateString : Str) : bool :=
  match Date_parse dateString with
  | None => false
  | Some time => eqb dateString (Date_toISOString time)
  end.

Definition isValidFriendshipStatus (status : Value) : bool :=
  includes ["pending"; "accepted"; "blocked"]%string status.

Definition isValidGameType (gameType : Value) : bool :=
  includes ["tic_tac_toe"]%string gameType.

Definition isValidSessionStatus (status : Value) : bool :=
  includes ["invited"; "accepted"; "in_progress"; "completed"]%string status.

(** [typeof v === "string"] and the like. *)
Definition typeof_is (v : Value) (type : string) : bool := eqb (typeof v) (js type).

(** [p(v)] at a place where the [typeof] test to its left has established
    that [v] is a string (resp. a number). *)
Definition on_string (p : Str -> bool) (v : Value) : bool :=
  match v with String s => p s | _ => false end.
Definition on_number (p : Num -> bool) (v : Value) : bool :=
  match v with Number n => p n | _ => false end.

(** [if (cond) errors.push(message)] *)
Definition push_if (cond : bool) (message : string) (errors : list Str) : list Str :=
  if cond then errors ++ [js message] else errors.

(** [{ isValid: errors.length === 0, errors }] *)
Definition result_of (errors : list Str) : ValidationResult :=
  {| isValid := Nat.eqb (List.length errors) 0; errors := errors |}.

(** [!v || typeof v !== "string" || !isValidUUID(v)] *)
Definition not_uuid (v : Value) : bool :=
  negb (truthy v) || negb (typeof_is v "string") || negb (on_string isValidUUID v).

(** [!v || typeof v !== "string" || !isValidISODate(v)] *)
Definition not_iso_date `{Platform} (v : Value) : bool :=
  negb (truthy v) || negb (typeof_is v "string") || negb (on_string isValidISODate v).

(** ** Database record validation *)

Definition validateFriendship `{Platform} (friendship : Value) : ValidationResult :=
  if negb (truthy friendship) || negb (typeof_is friendship "object") then
    {| isValid := false; errors := [js "Friendship must be an object"] |}
  else
    let errors := [] in
    let errors := push_if (not_uuid (get friendship "id"))
                    "Invalid UUID format for id" errors in
    let errors := push_if (not_uuid (get friendship "user1_id"))
                    "Invalid UUID format for user1_id" errors in
    let errors := push_if (not_uuid (get friendship "user2_id"))
                    "Invalid UUID format for user2_id" errors in
    let errors := push_if (strict_eq (get friendship "user1_id") (get friendship "user2_id"))
                    "Users cannot be friends with themselves" errors in
    let errors := push_if (negb (truthy (get friendship "status"))
                           || negb (isValidFriendshipStatus (get friendship "status")))
                    "Invalid friendship status" errors in
    let errors := push_if (not_iso_date (get friendship "created_at"))
                    "Invalid date format for created_at" errors in
    let errors := push_if (strict_eq (get friendship "status") (String (js "accepted"))
                           && negb (truthy (get friendship "accepted_at")))
                    "Accepted friendships must have accepted_at timestamp" errors in
    let errors := push_if (truthy (get friendship "accepted_at")
                           && (negb (typeof_is (get friendship "accepted_at") "string")
                               || negb (on_string isValidISODate (get friendship "accepted_at"))))
                    "Invalid date format for accepted_at" errors in
    result_of errors.

Definition validateGameSession `{Platform} (session : Value) : ValidationResult :=
  if negb (truthy session) || negb (typeof_is session "object") then
    {| isValid := false; errors := [js "Game session must be an object"] |}
  else
    let errors := [] in
    let errors := push_if (not_uuid (get session "id"))
                    "Invalid UUID format for id" errors in
    let errors := push_if (not_uuid (get session "player1_id"))
                    "Invalid UUID format for player1_id" errors in
    let errors := push_if (not_uuid (get session "player2_id"))
                    "Invalid UUID format for player2_id" errors in
    let errors := push_if (strict_eq (get session "player1_id") (get session "player2_id"))
                    "Players cannot play against themselves" errors in
    let errors := push_if (negb (truthy (get session "game_type"))
                           || negb (isValidGameType (get session "game_type")))
                    "Invalid game type" errors in
    let errors := push_if (negb (truthy (get session "status"))
                           || negb (isValidSessionStatus (get session "status")))
                    "Invalid session status" errors in
    let errors := push_if (negb (strict_eq (get session "winner_id") Null)
                           && (negb (typeof_is (get session "winner_id") "string")
                               || negb (on_string isValidUUID (get session "winner_id"))))
                    "Invalid UUID format for winner_id" errors in
    let errors := push_if (truthy (get session "winner_id")
                           && negb (strict_eq (get session "winner_id") (get session "player1_id"))
                           && negb (strict_eq (get session "winner_id") (get session "player2_id")))
                    "Winner must be one of the players" errors in
    let errors := push_if (not_iso_date (get session "created_at"))
                    "Invalid date format for created_at" errors in
    let errors := push_if (not_iso_date (get session "updated_at"))
                    "Invalid date format for updated_at" errors in
    let errors :=
      if strict_eq (get session "status") (String (js "completed")) then
        push_if (negb (truthy (get session "completed_at")))
          "Completed sessions must have completed_at timestamp" errors
      else
        push_if (truthy (get session "completed_at"))
          "Non-completed sessions must not have completed_at timestamp" errors in
    let errors := push_if (truthy (get session "completed_at")
                           && (negb (typeof_is (get session "completed_at") "string")
                               || negb (on_string isValidISODate (get session "completed_at"))))
                    "Invalid date format for completed_at" errors in
    result_of errors.

(** ** Real-time message validation *)

Definition validateGameMovePayload (payload : Value) : ValidationResult :=
  if negb (truthy payload) || negb (typeof_is payload "object") then
    {| isValid := false; errors := [js "Game move payload must be an object"] |}
  else
    let errors := [] in
    let errors := push_if (not_uuid (get payload "sessionId"))
                    "Invalid UUID format for sessionId" errors in
    let errors := push_if (negb (truthy (get payload "gameType"))
                           || negb (isValidGameType (get payload "gameType")))
                    "Invalid game type" errors in
    let errors := push_if (negb (truthy (get payload "moveData"))
                           || negb (typeof_is (get payload "moveData") "object"))
                    "Move data must be an object" errors in
    let errors :=
      if strict_eq (get payload "gameType") (String (js "tic_tac_toe"))
         && truthy (get payload "moveData") then
        let moveData := get payload "moveData" in
        let errors := push_if (negb (typeof_is (get moveData "position") "number")
                               || on_number (fun p => num_ltb p (num_of_Z 0)) (get moveData "position")
                               || on_number (fun p => num_ltb (num_of_Z 8) p) (get moveData "position"))
                        "Tic-tac-toe position must be a number between 0 and 8" errors in
        let errors := push_if (not_uuid (get moveData "player"))
                        "Invalid UUID format for player" errors in
        let errors := push_if (negb (isArray (get moveData "boardState"))
                               || negb (strict_eq (get (get moveData "boardState") "length")
                                          (Number (num_of_Z 9))))
                        "Board state must be an array of 9 elements" errors in
        errors
      else errors in
    result_of errors.

(** ** The other validators *)

(** [[^\s@]] *)
Definition not_space_or_at (c : N) : bool := negb (is_whitespace c || (c =? 64)%N).

(** [/^[^\s@]+@[^\s@]+\.[^\s@]+$/] *)
Definition emailRegex : Regex.Re :=
  Regex.Seq (Regex.Plus (Regex.Class not_space_or_at))
    (Regex.Seq (Regex.Class (fun c => (c =? 64)%N))
       (Regex.Seq (Regex.Plus (Regex.Class not_space_or_at))
          (Regex.Seq (Regex.Class (fun c => (c =? 46)%N))
             (Regex.Plus (Regex.Class not_space_or_at))))).

Definition isValidEmail (email : Str) : bool := Regex.test emailRegex email.

Definition isValidMessageType (messageType : Value) : bool :=
  includes ["text"; "image"; "system"]%string messageType.

Definition isValidRealtimeMessageType (type : Value) : bool :=
  includes ["chat"; "game_move"; "game_invite"; "game_accept"; "game_complete";
            "friend_request"; "friend_accept"; "presence_update";
            "typing_indicator"; "connection_status"]%string type.

(** [!v || typeof v !== "string" || v.trim() === ""] *)
Definition blank (v : Value) : bool :=
  negb (truthy v) || negb (typeof_is v "string")
  || on_string (fun s => eqb (trim s) (js "")) v.

Definition validateUserProfile `{Platform} (profile : Value) : ValidationResult :=
  if negb (truthy profile) || negb (typeof_is profile "object") then
    {| isValid := false; errors := [js "Profile must be an object"] |}
  else
    let errors := [] in
    let errors := push_if (not_uuid (get profile "id"))
                    "Invalid UUID format for id" errors in
    let errors := push_if (negb (truthy (get profile "email"))
                           || negb (typeof_is (get profile "email") "string")
                           || negb (on_string isValidEmail (get profile "email")))
                    "Invalid email format" errors in
    let errors := push_if (blank (get profile "display_name"))
                    "Display name cannot be empty" errors in
    let errors := push_if (negb (strict_eq (get profile "avatar_url") Null)
                           && negb (typeof_is (get profile "avatar_url") "string"))
                    "Avatar URL must be a string or null" errors in
    let errors := push_if (not_iso_date (get profile "created_at"))
                    "Invalid date format for created_at" errors in
    let errors := push_if (not_iso_date (get profile "updated_at"))
                    "Invalid date format for updated_at" errors in
    result_of errors.

(** The elements a [for ... of] over [v] visits, [v] being an array. *)
Definition elements (v : Value) : list Value :=
  match v with Array _ elems _ => elems | _ => [] end.

(** [for (const position of board) { if (bad) { errors.push(...); break; } }] *)
Fixpoint check_positions (board : list Value) (errors : list Str) : list Str :=
  match board with
  | [] => errors
  | position :: rest =>
      if negb (typeof_is position "string")
         || negb (includes ["X"; "O"; ""]%string position)
      then errors ++ [js "Board positions must be 'X', 'O', or empty string"]
      else check_positions rest errors
  end.

Definition validateTicTacToeGame (game : Value) : ValidationResult :=
  if negb (truthy game) || negb (typeof_is game "object") then
    {| isValid := false; errors := [js "Tic-tac-toe game must be an object"] |}
  else
    let errors := [] in
    let errors := push_if (not_uuid (get game "session_id"))
                    "Invalid UUID format for session_id" errors in
    let errors :=
      if negb (isArray (get game "board_state"))
         || negb (strict_eq (get (get game "board_state") "length") (Number (num_of_Z 9)))
      then push_if true "Tic-tac-toe board must have exactly 9 positions" errors
      else check_positions (elements (get game "board_state")) errors in
    let errors := push_if (not_uuid (get game "current_turn"))
                    "Invalid UUID format for current_turn" errors in
    result_of errors.

Definition validateChatMessageRecord `{Platform} (message : Value) : ValidationResult :=
  if negb (truthy message) || negb (typeof_is message "object") then
    {| isValid := false; errors := [js "Message must be an object"] |}
  else
    let errors := [] in
    let errors := push_if (not_uuid (get message "id"))
                    "Invalid UUID format for id" errors in
    let errors := push_if (not_uuid (get message "sender_id"))
                    "Invalid UUID format for sender_id" errors in
    let errors := push_if (not_uuid (get message "receiver_id"))
                    "Invalid UUID format for receiver_id" errors in
    let errors := push_if (strict_eq (get message "sender_id") (get message "receiver_id"))
                    "Sender and receiver cannot be the same user" errors in
    let errors :=
      if blank (get message "content") then
        push_if true "Message content cannot be empty" errors
      else
        push_if (on_number (fun n => num_ltb (num_of_Z 5000) n)
                   (get (get message "content") "length"))
          "Message content exceeds maximum length of 5000 characters" errors in
    let errors := push_if (negb (truthy (get message "message_type"))
                           || negb (isValidMessageType (get message "message_type")))
                    "Invalid message type" errors in
    let errors := push_if (not_iso_date (get message "created_at"))
                    "Invalid date format for created_at" errors in
    let errors := push_if (negb (strict_eq (get message "read_at") Null)
                           && (negb (typeof_is (get message "read_at") "string")
                               || negb (on_string isValidISODate (get message "read_at"))))
                    "Invalid date format for read_at" errors in
    result_of errors.

Definition validateRealtimeMessage `{Platform} (message : Value) : ValidationResult :=
  if negb (truthy message) || negb (typeof_is message "object") then
    {| isValid := false; errors := [js "Message must be an object"] |}
  else
    let errors := [] in
    let errors := push_if (negb (truthy (get message "type"))
                           || negb (isValidRealtimeMessageType (get message "type")))
                    "Invalid message type" errors in
    let errors := push_if (negb (truthy (get message "payload"))
                           || negb (typeof_is (get message "payload") "object"))
                    "Payload must be an object" errors in
    let errors := push_if (not_uuid (get message "userId"))
                    "Invalid UUID format for userId" errors in
    let errors := push_if (not_iso_date (get message "timestamp"))
                    "Invalid date format for timestamp" errors in
    let errors := push_if (truthy (get message "messageId")
                           && (negb (typeof_is (get message "messageId") "string")
                               || negb (on_string isValidUUID (get message "messageId"))))
                    "Invalid UUID format for messageId" errors in
    result_of errors.

Definition validateChatPayload (payload : Value) : ValidationResult :=
  if negb (truthy payload) || negb (typeof_is payload "object") then
    {| isValid := false; errors := [js "Chat payload must be an object"] |}
  else
    let errors := [] in
    let errors := push_if (blank (get payload "content"))
                    "Content must be a non-empty string" errors in
    let errors := push_if (not_uuid (get payload "receiverId"))
                    "Invalid UUID format for receiverId" errors in
    let errors := push_if (negb (truthy (get payload "messageType"))
                           || negb (isValidMessageType (get payload "messageType")))
                    "Invalid message type" errors in
    result_of errors.

(** ** Typed records as values

    The object a well-typed record is at run time, which is what the
    validators receive. *)

Definition FriendshipStatus_value (s : FriendshipStatus) : Value :=
  String (js match s with
             | pending => "pending" | accepted => "accepted" | blocked => "blocked"
             end).

Definition GameType_value (g : GameType) : Value :=
  String (js match g with tic_tac_toe => "tic_tac_toe" end).

Definition SessionStatus_value (s : SessionStatus) : Value :=
  String (js match s with
             | invited => "invited" | session_accepted => "accepted"
             | in_progress => "in_progress" | completed => "completed"
             end).

Definition nullable (s : option Str) : Value :=
  match s with Some s => String s | None => Null end.

Definition Friendship_value (ref : positive) (f : Friendship.t) : Value :=
  Object ref
    [(js "id", String (Friendship.id f));
     (js "user1_id", String (Friendship.user1_id f));
     (js "user2_id", String (Friendship.user2_id f));
     (js "status", FriendshipStatus_value (Friendship.status f));
     (js "created_at", String (Friendship.created_at f));
     (js "accepted_at", nullable (Friendship.accepted_at f))].

Definition GameSession_value (ref : positive) (g : GameSession.t) : Value :=
  Object ref
    [(js "id", String (GameSession.id g));
     (js "player1_id", String (GameSession.player1_id g));
     (js "player2_id", String (GameSession.player2_id g));
     (js "game_type", GameType_value (GameSession.game_type g));
     (js "status", SessionStatus_value (GameSession.status g));
     (js "winner_id", nullable (GameSession.winner_id g));
     (js "created_at", String (GameSession.created_at g));
     (js "updated_at", String (GameSession.updated_at g));
     (js "completed_at", nullable (GameSession.completed_at g))].

(** [{ sessionId, gameType: "tic_tac_toe", moveData: { position, player,
    boardState } }] *)
Definition GameMovePayload_value (sessionId : Str) (position : Value)
    (player : Str) (boardState : list Str) : Value :=
  Object 1
    [(js "sessionId", String sessionId);
     (js "gameType", GameType_value tic_tac_toe);
     (js "moveData",
      Object 2
        [(js "position", position);
         (js "player", String player);
         (js "boardState", Array 3 (List.map String boardState) [])])].

Definition optional (s : option Str) : Value :=
  match s with Some s => String s | None => Undefined end.

Definition MessageType_value (m : MessageType) : Value :=
  String (js match m with text => "text" | image => "image" | system => "system" end).

Definition RealtimeMessageType_value (t : RealtimeMessageType) : Value :=
  String (js match t with
             | chat => "chat" | game_move => "game_move"
             | game_invite => "game_invite" | game_accept => "game_accept"
             | game_complete => "game_complete" | friend_request => "friend_request"
             | friend_accept => "friend_accept" | presence_update => "presence_update"
             | typing_indicator => "typing_indicator"
             | connection_status => "connection_status"
             end).

Definition UserProfile_value (ref : positive) (p : UserProfile.t) : Value :=
  Object ref
    [(js "id", String (UserProfile.id p));
     (js "email", String (UserProfile.email p));
     (js "display_name", String (UserProfile.display_name p));
     (js "avatar_url", nullable (UserProfile.avatar_url p));
     (js "created_at", String (UserProfile.created_at p));
     (js "updated_at", String (UserProfile.updated_at p))].

Definition TicTacToeGame_value (ref : positive) (g : TicTacToeGame.t) : Value :=
  Object ref
    [(js "session_id", String (TicTacToeGame.session_id g));
     (js "board_state", Array (ref~0) (List.map String (TicTacToeGame.board_state g)) []);
     (js "current_turn", String (TicTacToeGame.current_turn g))].

Definition ChatMessageRecord_value (ref : positive) (r : ChatMessageRecord.t) : Value :=
  Object ref
    [(js "id", String (ChatMessageRecord.id r));
     (js "sender_id", String (ChatMessageRecord.sender_id r));
     (js "receiver_id", String (ChatMessageRecord.receiver_id r));
     (js "content", String (ChatMessageRecord.content r));
     (js "message_type", MessageType_value (ChatMessageRecord.message_type r));
     (js "created_at", String (ChatMessageRecord.created_at r));
     (js "read_at", nullable (ChatMessageRecord.read_at r))].

Definition ChatPayload_value (ref : positive) (p : ChatPayload.t) : Value :=
  Object ref
    [(js "content", String (ChatPayload.content p));
     (js "receiverId", String (ChatPayload.receiverId p));
     (js "messageType", MessageType_value (ChatPayload.messageType p))].

Definition GameInvitePayload_value (ref : positive) (p : GameInvitePayload.t) : Value :=
  Object ref
    [(js "invitedUserId", String (GameInvitePayload.invitedUserId p));
     (js "gameType", GameType_value (GameInvitePayload.gameType p));
     (js "sessionId", String (GameInvitePayload.sessionId p))].

Definition FriendRequestPayload_value (ref : positive) (p : FriendRequestPayload.t) : Value :=
  Object ref
    [(js "targetUserId", String (FriendRequestPayload.targetUserId p));
     (js "requesterId", String (FriendRequestPayload.requesterId p));
     (js "requesterName", String (FriendRequestPayload.requesterName p))].

Definition TypedGameMovePayload_value (p : GameMovePayload.t) : Value :=
  GameMovePayload_value (GameMovePayload.sessionId p)
    (Number (TicTacToeMoveData.position (GameMovePayload.moveData p)))
    (TicTacToeMoveData.player (GameMovePayload.moveData p))
    (TicTacToeMoveData.boardState (GameMovePayload.moveData p)).

(** The envelope with its payload as [payload_value] renders it; an absent
    [messageId] reads as [undefined]. *)
Definition RealtimeMessage_value {T} (payload_value : T -> Value) (ref : positive)
    (m : RealtimeMessage.t T) : Value :=
  Object ref
    [(js "type", RealtimeMessageType_value (RealtimeMessage.type m));
     (js "payload", payload_value (RealtimeMessage.payload m));
     (js "userId", String (RealtimeMessage.userId m));
     (js "timestamp", String (RealtimeMessage.timestamp m));
     (js "messageId", optional (RealtimeMessage.messageId m))].

End UnifiedTypes.

(* ===================================================================== *)
(** * Fixtures of unified_types_test.ts *)
(* ===================================================================== *)

Module Fixtures.
Import Js UnifiedTypes.

Definition validFriendship : Friendship.t :=
  {| Friendship.id := js "123e4567-e89b-12d3-a456-426614174001";
     Friendship.user1_id := js "123e4567-e89b-12d3-a456-426614174000";
     Friendship.user2_id := js "123e4567-e89b-12d3-a456-426614174002";
     Friendship.status := accepted;
     Friendship.created_at := js "2025-06-05T12:00:00.000Z";
     Friendship.accepted_at := Some (js "2025-06-05T12:00:00.000Z") |}.

Definition validGameSession : GameSession.t :=
  {| GameSession.id := js "123e4567-e89b-12d3-a456-426614174003";
     GameSession.player1_id := js "123e4567-e89b-12d3-a456-426614174000";
     GameSession.player2_id := js "123e4567-e89b-12d3-a456-426614174002";
     GameSession.game_type := tic_tac_toe;
     GameSession.status := in_progress;
     GameSession.winner_id := None;
     GameSession.created_at := js "2025-06-05T12:00:00.000Z";
     GameSession.updated_at := js "2025-06-05T12:00:00.000Z";
     GameSession.completed_at := None |}.


(** [{ ...validGameSession, status, completed_at }] *)
Definition sessionWith (status : SessionStatus) (completed_at : option Str)
  : GameSession.t :=
  {| GameSession.id := GameSession.id validGameSession;
     GameSession.player1_id := GameSession.player1_id validGameSession;
     GameSession.player2_id := GameSession.player2_id validGameSession;
     GameSession.game_type := GameSession.game_type validGameSession;
     GameSession.status := status;
     GameSession.winner_id := GameSession.winner_id validGameSession;
     GameSession.created_at := GameSession.created_at validGameSession;
     GameSession.updated_at := GameSession.updated_at validGameSession;
     GameSession.completed_at := completed_at |}.

(** [{ ...validGameMovePayload, moveData: { ...validTicTacToeMoveData,
    position } }] *)
Definition movePayloadWith (position : Value) : Value :=
  GameMovePayload_value (js "123e4567-e89b-12d3-a456-426614174003") position
    (js "123e4567-e89b-12d3-a456-426614174000")
    [js ""; js ""; js ""; js ""; js "X"; js ""; js ""; js ""; js ""].

Definition validUserProfile : UserProfile.t :=
  {| UserProfile.id := js "123e4567-e89b-12d3-a456-426614174000";
     UserProfile.email := js "test@example.com";
     UserProfile.display_name := js "Test User";
     UserProfile.avatar_url := None;
     UserProfile.created_at := js "2025-06-05T12:00:00.000Z";
     UserProfile.updated_at := js "2025-06-05T12:00:00.000Z" |}.

Definition validTicTacToeGame : TicTacToeGame.t :=
  {| TicTacToeGame.session_id := js "123e4567-e89b-12d3-a456-426614174003";
     TicTacToeGame.board_state := [js ""; js ""; js ""; js ""; js ""; js ""; js ""; js ""; js ""];
     TicTacToeGame.current_turn := js "123e4567-e89b-12d3-a456-426614174000" |}.

Definition validChatMessageRecord : ChatMessageRecord.t :=
  {| ChatMessageRecord.id := js "123e4567-e89b-12d3-a456-426614174004";
     ChatMessageRecord.sender_id := js "123e4567-e89b-12d3-a456-426614174000";
     ChatMessageRecord.receiver_id := js "123e4567-e89b-12d3-a456-426614174002";
     ChatMessageRecord.content := js "Hello friend!";
     ChatMessageRecord.message_type := text;
     ChatMessageRecord.created_at := js "2025-06-05T12:00:00.000Z";
     ChatMessageRecord.read_at := None |}.

Definition validChatPayload : ChatPayload.t :=
  {| ChatPayload.content := js "Hello from real-time!";
     ChatPayload.receiverId := js "123e4567-e89b-12d3-a456-426614174002";
     ChatPayload.messageType := text |}.

Definition validRealtimeChatMessage : RealtimeMessage.t ChatPayload.t :=
  {| RealtimeMessage.type := chat;
     RealtimeMessage.payload := validChatPayload;
     RealtimeMessage.userId := js "123e4567-e89b-12d3-a456-426614174000";
     RealtimeMessage.timestamp := js "2025-06-05T12:00:00.000Z";
     RealtimeMessage.messageId := Some (js "123e4567-e89b-12d3-a456-426614174004") |}.

(** The time value of 2025-06-05T12:00:00.000Z. *)
Definition noon : Z := 1749124800000.

End Fixtures.

(* ===================================================================== *)
(** * A reference platform for the concrete examples *)
(* ===================================================================== *)

(** The general results below hold for every [Platform]. The concrete
    examples need one: this is the part of [Date] and [URL] on which they
    rely.
    - [Date_parse] reads the format [toISOString] writes for the years 0000
      to 9999, [YYYY-MM-DDTHH:mm:ss.sssZ], and yields NaN on every other
      string (engines differ on other strings, on none of which
      [isValidISODate] holds, as [toISOString] never writes them);
    - [URL_searchParams] needs a scheme, takes the query between the first
      [?] and the fragment, splits it at [&] and at the first [=]; percent
      and [+] escapes are left as they are. *)
Module Reference.
Import Js.

Definition digit (c : N) : option Z :=
  if ((48 <=? c) && (c <=? 57))%N then Some (Z.of_N c - 48)%Z else None.

(** Reads [n] decimal digits. *)
Fixpoint take_digits (n : nat) (acc : Z) (s : Str) : option (Z * Str) :=
  match n with
  | O => Some (acc, s)
  | S n' =>
      match s with
      | c :: s' => d ← digit c; take_digits n' (10 * acc + d)%Z s'
      | [] => None
      end
  end.

Definition expect (c : N) (s : Str) : option Str :=
  match s with
  | c' :: s' => if (c' =? c)%N then Some s' else None
  | [] => None
  end.

Definition leap (y : Z) : bool :=
  ((y mod 4 =? 0) && (negb (y mod 100 =? 0) || (y mod 400 =? 0)))%Z.

Definition days_in_month (y m : Z) : Z :=
  (if m =? 2 then (if leap y then 29 else 28)
   else if (m =? 4) || (m =? 6) || (m =? 9) || (m =? 11) then 30 else 31)%Z.

(** Days between 1970-01-01 and the given civil date. *)
Definition days_from_civil (y m d : Z) : Z :=
  (let y' := if m <=? 2 then y - 1 else y in
   let era := y' / 400 in
   let yoe := y' - era * 400 in
   let doy := (153 * (if m >? 2 then m - 3 else m + 9) + 2) / 5 + d - 1 in
   let doe := yoe * 365 + yoe / 4 - yoe / 100 + doy in
   era * 146097 + doe - 719468)%Z.

(** The civil date of a day number: year, month, day. *)
Definition civil_from_days (z : Z) : Z * Z * Z :=
  (let z := z + 719468 in
   let era := z / 146097 in
   let doe := z - era * 146097 in
   let yoe := (doe - doe / 1460 + doe / 36524 - doe / 146096) / 365 in
   let doy := doe - (365 * yoe + yoe / 4 - yoe / 100) in
   let mp := (5 * doy + 2) / 153 in
   let d := doy - (153 * mp + 2) / 5 + 1 in
   let m := if mp <? 10 then mp + 3 else mp - 9 in
   (yoe + era * 400 + (if m <=? 2 then 1 else 0), m, d))%Z.

Definition parseDate (s : Str) : option Z :=
  '(year, s) ← take_digits 4 0 s; s ← expect 45 s;
  '(month, s) ← take_digits 2 0 s; s ← expect 45 s;
  '(day, s) ← take_digits 2 0 s; s ← expect 84 s;
  '(hour, s) ← take_digits 2 0 s; s ← expect 58 s;
  '(minute, s) ← take_digits 2 0 s; s ← expect 58 s;
  '(second, s) ← take_digits 2 0 s; s ← expect 46 s;
  '(ms, s) ← take_digits 3 0 s; s ← expect 90 s;
  if (eqb s [] && (1 <=? month) && (month <=? 12) && (1 <=? day)
      && (day <=? days_in_month year month) && (hour <=? 23)
      && (minute <=? 59) && (second <=? 59))%Z
  then Some (((days_from_civil year month day * 24 + hour) * 60 + minute) * 60000
             + second * 1000 + ms)%Z
  else None.

(** The [n] low decimal digits of [z], most significant first. *)
Fixpoint pad (n : nat) (z : Z) : Str :=
  match n with
  | O => []
  | S n' => pad n' (z / 10) ++ [Z.to_N (z mod 10) + 48]%N
  end.

Definition toISOString (time : Z) : Str :=
  (let days := time / 86400000 in
   let rest := time mod 86400000 in
   let '(year, month, day) := civil_from_days days in
   (if (0 <=? year) && (year <=? 9999) then pad 4 year
    else (if year <? 0 then js "-" else js "+") ++ pad 6 (Z.abs year))
   ++ js "-" ++ pad 2 month ++ js "-" ++ pad 2 day ++ js "T"
   ++ pad 2 (rest / 3600000) ++ js ":" ++ pad 2 (rest / 60000 mod 60) ++ js ":"
   ++ pad 2 (rest / 1000 mod 60) ++ js "." ++ pad 3 (rest mod 1000) ++ js "Z")%Z.

Definition is_alpha (c : N) : bool :=
  ((65 <=? c) && (c <=? 90) || (97 <=? c) && (c <=? 122))%N.

Definition is_scheme_char (c : N) : bool :=
  (is_alpha c || (48 <=? c) && (c <=? 57) || (c =? 43) || (c =? 45) || (c =? 46))%N.

(** What follows the colon of the scheme, when there is a scheme. *)
Fixpoint after_scheme (first : bool) (s : Str) : option Str :=
  match s with
  | [] => None
  | c :: s' =>
      if (negb first && (c =? 58))%N then Some s'
      else if (if first then is_alpha c else is_scheme_char c)
           then after_scheme false s' else None
  end.

(** [s] up to the first [c], and what follows that [c] if it occurs. *)
Fixpoint split_at (c : N) (s : Str) : Str * option Str :=
  match s with
  | [] => ([], None)
  | x :: s' =>
      if (x =? c)%N then ([], Some s')
      else let (before, after) := split_at c s' in (x :: before, after)
  end.

(** The pieces of [s] between occurrences of [c]. *)
Fixpoint pieces (c : N) (piece : Str) (s : Str) : list Str :=
  match s with
  | [] => [rev piece]
  | x :: s' =>
      if (x =? c)%N then rev piece :: pieces c [] s'
      else pieces c (x :: piece) s'
  end.

Definition pair_of (piece : Str) : Str * Str :=
  let (name, value) := split_at 61 piece in (name, default [] value).

Definition searchParams (url : Str) : option (list (Str * Str)) :=
  rest ← after_scheme true url;
  match snd (split_at 63 (fst (split_at 35 rest))) with
  | None => Some []
  | Some query =>
      Some (List.map pair_of (List.filter (fun p => negb (eqb p [])) (pieces 38 [] query)))
  end.

Definition platform : Platform :=
  {| Date_parse := parseDate;
     Date_toISOString := toISOString;
     URL_searchParams := searchParams |}.

End Reference.

(* ===================================================================== *)
(** * Properties of the connection registry *)
(* ===================================================================== *)

Section Registry.
Import Js WebsocketAuth.

(** Runs a sequence of method calls on a symbolic state. *)
Ltac run_methods :=
  unfold mbind, mret, Method_bind, Method_ret, andThen, pure,
    addConnection, removeConnection, getConnection, hasConnection; cbn.

Lemma getConnection_addConnection (m : Connections) u c :
  fst (getConnection u (snd (addConnection u c m))) = Some c.
Proof. cbn. apply lookup_insert_eq. Qed.

Lemma getConnection_addConnection_other (m : Connections) u v c :
  u ≠ v -> fst (getConnection v (snd (addConnection u c m))) = fst (getConnection v m).
Proof. intros Hne. cbn. by apply lookup_insert_ne. Qed.

Lemma getConnection_removeConnection (m : Connections) u :
  fst (getConnection u (snd (removeConnection u m))) = None.
Proof. cbn. apply lookup_delete_eq. Qed.

Lemma getConnection_removeConnection_other (m : Connections) u v :
  u ≠ v -> fst (getConnection v (snd (removeConnection u m))) = fst (getConnection v m).
Proof. intros Hne. cbn. by apply lookup_delete_ne. Qed.

Lemma hasConnection_getConnection (m : Connections) u :
  fst (hasConnection u m) = true <-> is_Some (fst (getConnection u m)).
Proof. cbn. apply bool_decide_eq_true. Qed.

(** C1 (as the source has it): after [addConnection(u, c1)] and
    [addConnection(u, c2)], [getConnection(u)] is [c2] and [hasConnection(u)]
    holds, whatever the manager held before, and the entries of the other
    users are as they were; [addConnection] is [void], so the second call
    hands no displaced connection back. *)
Theorem C1_register_replaces (m : Connections) (u : Str) (c1 c2 : WebSocket) :
  fst (replaceThenLookup u c1 c2 m) = (None, Some c2)
  /\ fst (hasConnection u (snd (replaceThenLookup u c1 c2 m))) = true
  /\ (forall v, u ≠ v ->
        fst (getConnection v (snd (replaceThenLookup u c1 c2 m)))
        = fst (getConnection v m)).
Proof.
  unfold replaceThenLookup. run_methods. split; [|split].
  - by rewrite lookup_insert_eq.
  - apply bool_decide_eq_true. rewrite lookup_insert_eq. eauto.
  - intros v Hne. by rewrite !lookup_insert_ne.
Qed.

(** C1, the claim as stated fails: the second registration does not return
    the displaced connection. *)
Lemma C1_no_displaced_connection :
  fst (replaceThenLookup (js "user_123") 1%positive 2%positive ∅)
  ≠ (Some 1%positive, Some 2%positive).
Proof. vm_compute. discriminate. Qed.

(** C2 (as the source has it): [removeConnection(u)] removes the entry of
    [u] whichever connection is registered: run as the teardown of the
    displaced [c1] it evicts the replacement [c2], after which the user has
    no connection; the entries of the other users are as they were. *)
Theorem C2_remove_is_unconditional (m : Connections) (u : Str) (c1 c2 : WebSocket) :
  fst (staleTeardown u c1 c2 m) = (None, false)
  /\ fst (getConnection u (snd (removeConnection u (snd (addConnection u c2 m))))) = None
  /\ (forall v, u ≠ v ->
        fst (getConnection v (snd (staleTeardown u c1 c2 m)))
        = fst (getConnection v m)).
Proof.
  unfold staleTeardown. run_methods. split; [|split].
  - by rewrite lookup_delete_eq.
  - apply lookup_delete_eq.
  - intros v Hne. by rewrite lookup_delete_ne, !lookup_insert_ne.
Qed.

(** C2, the claim as stated fails: after the teardown of the displaced
    connection the lookup no longer returns the replacement. *)
Lemma C2_stale_teardown_evicts :
  fst (fst (staleTeardown (js "user_123") 1%positive 2%positive ∅))
  ≠ Some 2%positive.
Proof. vm_compute. discriminate. Qed.

End Registry.

(* ===================================================================== *)
(** * Properties of strings *)
(* ===================================================================== *)

Section Strings.
Import Js.

Lemma eqb_eq (a b : Str) : eqb a b = true <-> a = b.
Proof.
  revert b. induction a as [|x a IH]; intros [|y b]; cbn; try easy.
  rewrite andb_true_iff, N.eqb_eq, IH. split.
  - by intros [-> ->].
  - intros [= -> ->]. done.
Qed.

Lemma eqb_refl (a : Str) : eqb a a = true.
Proof. by apply eqb_eq. Qed.

Lemma eqb_neq (a b : Str) : eqb a b = false <-> a ≠ b.
Proof.
  rewrite <- eqb_eq. destruct (eqb a b); split; congruence.
Qed.

Lemma js_inj (s t : string) : js s = js t -> s = t.
Proof.
  unfold js. intros H.
  rewrite <- (string_of_list_ascii_of_string s), <- (string_of_list_ascii_of_string t).
  f_equal. revert H. generalize (list_ascii_of_string s) (list_ascii_of_string t).
  intros l. induction l as [|x l IH]; intros [|y l']; cbn; try easy.
  intros [= Hxy Hl]. f_equal; [|by apply IH].
  rewrite <- (ascii_N_embedding x), <- (ascii_N_embedding y). by rewrite Hxy.
Qed.

Lemma ltb_irrefl (a : Str) : ltb a a = false.
Proof.
  induction a as [|x a IH]; cbn; [done|].
  by rewrite N.ltb_irrefl, N.eqb_refl.
Qed.

Lemma ltb_asym (a b : Str) : ltb a b = true -> ltb b a = false.
Proof.
  revert b. induction a as [|x a IH]; intros [|y b]; cbn; try easy.
  destruct (N.ltb_spec x y) as [Hxy|Hxy].
  - intros _. destruct (N.ltb_spec y x); [lia|].
    destruct (N.eqb_spec y x); [lia|done].
  - destruct (N.eqb_spec x y) as [->|Hne]; [|done].
    rewrite N.ltb_irrefl, N.eqb_refl. apply IH.
Qed.

Lemma ltb_trans (a b c : Str) : ltb a b = true -> ltb b c = true -> ltb a c = true.
Proof.
  revert b c. induction a as [|x a IH]; intros [|y b] [|z c]; cbn; try easy.
  destruct (N.ltb_spec x y) as [Hxy|Hxy]; destruct (N.ltb_spec y z) as [Hyz|Hyz];
    destruct (N.ltb_spec x z) as [Hxz|Hxz]; try done;
    destruct (N.eqb_spec x y) as [Exy|Exy]; destruct (N.eqb_spec y z) as [Eyz|Eyz];
    destruct (N.eqb_spec x z) as [Exz|Exz]; try done; try lia.
  apply IH.
Qed.

Lemma ltb_total (a b : Str) : a ≠ b -> ltb a b = true \/ ltb b a = true.
Proof.
  revert b. induction a as [|x a IH]; intros [|y b]; cbn; try (by auto).
  intros Hne.
  destruct (N.ltb_spec x y) as [Hxy|Hxy]; [by left|].
  destruct (N.ltb_spec y x) as [Hyx|Hyx]; [by right|].
  assert (x = y) as -> by lia. rewrite N.eqb_refl.
  apply IH. congruence.
Qed.

(** Trimming leaves nothing exactly when every code unit is white space. *)
Lemma trimStart_nil (s : Str) :
  trimStart s = [] <-> forallb is_whitespace s = true.
Proof.
  induction s as [|c s IH]; cbn; [done|].
  destruct (is_whitespace c); cbn; [done|]. split; discriminate.
Qed.

Lemma trimStart_head (s : Str) :
  match trimStart s with [] => True | c :: _ => is_whitespace c = false end.
Proof.
  induction s as [|c s IH]; cbn; [done|].
  by destruct (is_whitespace c) eqn:Hc; [|rewrite Hc].
Qed.


Lemma trim_nil (s : Str) : trim s = [] <-> forallb is_whitespace s = true.
Proof.
  unfold trim, trimEnd. split.
  - intros H. apply (f_equal (@rev N)) in H. rewrite rev_involutive in H. cbn in H.
    apply trimStart_nil in H. rewrite forallb_forall in H.
    pose proof (trimStart_head s) as Hhead.
    destruct (trimStart s) as [|c t] eqn:Ht; [by apply trimStart_nil|].
    specialize (H c). rewrite <- in_rev in H. rewrite H in Hhead; [done|by left].
  - intros H. apply trimStart_nil in H. by rewrite H.
Qed.

End Strings.

(* ===================================================================== *)
(** * Properties of the transformers and of the canonical ordering *)
(* ===================================================================== *)

(** A boolean relation that is a strict total order. *)
Definition strict_total_order {A} (lt : A -> A -> bool) : Prop :=
  (forall a, lt a a = false)
  /\ (forall a b c, lt a b = true -> lt b c = true -> lt a c = true)
  /\ (forall a b, a ≠ b -> lt a b = true \/ lt b a = true).

Section Transformers.
Import Js UnifiedTypes UnifiedTypes.MessageTransformer.

(** C7: [realtimeChatToRecord(chatRecordToRealtime(r), r.id)] has the
    sender, receiver, content and message kind of [r] (and its id). *)
Theorem C7_chat_round_trip (r : ChatMessageRecord.t) :
  let draft := realtimeChatToRecord (chatRecordToRealtime r) (ChatMessageRecord.id r) in
  ChatMessageDraft.sender_id draft = ChatMessageRecord.sender_id r
  /\ ChatMessageDraft.receiver_id draft = ChatMessageRecord.receiver_id r
  /\ ChatMessageDraft.content draft = ChatMessageRecord.content r
  /\ ChatMessageDraft.message_type draft = ChatMessageRecord.message_type r
  /\ ChatMessageDraft.id draft = ChatMessageRecord.id r.
Proof. by destruct r. Qed.

(** C8: for distinct identifiers [ensureFriendshipOrdering(a, b)] and
    [ensureFriendshipOrdering(b, a)] are the same pair, which holds [a] and
    [b] with the smaller first in the order [<] of strings; that order is a
    strict total order. *)
Theorem C8_ordering_canonical (a b : Str) (Hdistinct : a ≠ b) :
  ensureFriendshipOrdering a b = ensureFriendshipOrdering b a
  /\ ltb (fst (ensureFriendshipOrdering a b)) (snd (ensureFriendshipOrdering a b)) = true
  /\ (ensureFriendshipOrdering a b = (a, b) \/ ensureFriendshipOrdering a b = (b, a))
  /\ strict_total_order ltb.
Proof.
  unfold ensureFriendshipOrdering.
  destruct (ltb a b) eqn:Hab.
  - rewrite (ltb_asym _ _ Hab). cbn. repeat split; auto using ltb_irrefl, ltb_total.
    apply ltb_trans.
  - destruct (ltb_total a b Hdistinct) as [H|H]; [congruence|].
    rewrite H. cbn. repeat split; auto using ltb_irrefl, ltb_total.
    apply ltb_trans.
Qed.

Lemma C8_ordering_canonical_witness :
  ensureFriendshipOrdering (js "b") (js "a") = ensureFriendshipOrdering (js "a") (js "b")
  /\ ltb (fst (ensureFriendshipOrdering (js "b") (js "a")))
       (snd (ensureFriendshipOrdering (js "b") (js "a"))) = true
  /\ (ensureFriendshipOrdering (js "b") (js "a") = (js "b", js "a")
      \/ ensureFriendshipOrdering (js "b") (js "a") = (js "a", js "b"))
  /\ strict_total_order ltb.
Proof.
  apply (C8_ordering_canonical (js "b") (js "a")).
  intros H. apply js_inj in H. discriminate H.
Defined.

(** C6 (as the source has it): the payload's target is the friendship's
    [user2_id] and its requester the friendship's [user1_id], whichever side
    the profile is; the requester name is the profile's display name. So the
    target is the side that is not the requester exactly when the requester
    is the one stored as [user1_id]. *)
Theorem C6_friend_request_sides (f : Friendship.t) (p : UserProfile.t) :
  let message := friendshipToRealtimeRequest f p in
  FriendRequestPayload.targetUserId (RealtimeMessage.payload message) = Friendship.user2_id f
  /\ FriendRequestPayload.requesterId (RealtimeMessage.payload message) = Friendship.user1_id f
  /\ FriendRequestPayload.requesterName (RealtimeMessage.payload message)
     = UserProfile.display_name p
  /\ RealtimeMessage.userId message = Friendship.user1_id f
  /\ (FriendRequestPayload.targetUserId (RealtimeMessage.payload message) = UserProfile.id p
      <-> UserProfile.id p = Friendship.user2_id f).
Proof. cbn. intuition congruence. Qed.

(** C6, the claim as stated fails: when the requester is the one stored as
    [user2_id], the target is the requester, not the other side. *)
Lemma C6_target_is_requester :
  let f := {| Friendship.id := js "123e4567-e89b-12d3-a456-426614174001";
              Friendship.user1_id := js "123e4567-e89b-12d3-a456-426614174000";
              Friendship.user2_id := js "123e4567-e89b-12d3-a456-426614174002";
              Friendship.status := pending;
              Friendship.created_at := js "2025-06-05T12:00:00.000Z";
              Friendship.accepted_at := None |} in
  let p := {| UserProfile.id := js "123e4567-e89b-12d3-a456-426614174002";
              UserProfile.email := js "user2@example.com";
              UserProfile.display_name := js "Test User";
              UserProfile.avatar_url := None;
              UserProfile.created_at := js "2025-06-05T12:00:00.000Z";
              UserProfile.updated_at := js "2025-06-05T12:00:00.000Z" |} in
  let message := friendshipToRealtimeRequest f p in
  UserProfile.id p = Friendship.user2_id f
  /\ Friendship.user1_id f ≠ Friendship.user2_id f
  /\ FriendRequestPayload.targetUserId (RealtimeMessage.payload message) = UserProfile.id p
  /\ FriendRequestPayload.targetUserId (RealtimeMessage.payload message) ≠ Friendship.user1_id f.
Proof.
  cbn. repeat split; try reflexivity; intros H; apply js_inj in H; discriminate H.
Qed.

End Transformers.

(* ===================================================================== *)
(** * Properties of the authenticator *)
(* ===================================================================== *)

Section Authenticator.
Import Js WebsocketAuth.

(** The guard of [validateJWT] holds exactly for the empty string and the
    strings of white space. *)
Lemma missing_guard (jwt : Str) :
  negb (truthy (String jwt)) || eqb (trim jwt) (js "") = forallb is_whitespace jwt.
Proof.
  destruct (forallb is_whitespace jwt) eqn:Hws.
  - apply trim_nil in Hws. rewrite Hws. apply orb_true_r.
  - assert (trim jwt ≠ []) as Htrim.
    { intros Hnil. apply trim_nil in Hnil. congruence. }
    apply orb_false_iff. split.
    + destruct jwt; [discriminate Hws|reflexivity].
    + by apply eqb_neq.
Qed.

(** C3 (as the source has it): on an empty or white-space token the result
    is the MissingToken failure and the provider is not called. On any other
    token the provider is called once, with that token, and
    - an error in its response is a rejection with the error's message,
      verbatim;
    - a response without error and without user is a rejection with the
      fixed message "No user found for token";
    - a response without error and with a user is [Ok] with the user's id
      and email;
    - a call that throws is a rejection with the thrown message after the
      prefix "JWT validation failed: ". *)
Theorem C3_validateJWT (t : Str) (getUser : Str -> Settled) :
  run getUser (validateJWT t) =
    if forallb is_whitespace t then (MissingToken, [])
    else
      (match getUser t with
       | Resolved {| data_user := _; error := Some e |} => Rejected (message e)
       | Resolved {| data_user := None; error := None |} =>
           Rejected (js "No user found for token")
       | Resolved {| data_user := Some u; error := None |} =>
           Ok {| userId := user_id u; email := user_email u |}
       | Threw (ThrownError m) | Threw (ThrownOther m) =>
           Rejected (js "JWT validation failed: " ++ m)
       end, [t]).
Proof.
  unfold validateJWT. rewrite missing_guard.
  destruct (forallb is_whitespace t); [reflexivity|]. cbn.
  destruct (getUser t) as [[[u|] [e|]]|[m|m]]; reflexivity.
Qed.

(** C3, the claim as stated fails: when the call to the provider throws,
    the rejection does not carry the provider's message verbatim, and when
    the provider reports neither an error nor a user the message of the
    rejection is not the provider's at all. *)
Lemma C3_message_not_verbatim :
  fst (run (fun _ => Threw (ThrownError (js "JWT expired")))
         (validateJWT (js "expired_jwt_token")))
  ≠ Rejected (js "JWT expired")
  /\ fst (run (fun _ => Resolved {| data_user := None; error := None |})
            (validateJWT (js "unknown_jwt_token")))
     = Rejected (js "No user found for token").
Proof.
  split; [|reflexivity].
  vm_compute. discriminate.
Qed.

(** The scenarios of the test suite. *)
Example validateJWT_valid :
  run (fun jwt => Resolved {| data_user := Some {| user_id := js "user_123";
                                                    user_email := js "test@example.com" |};
                              error := None |})
      (validateJWT (js "valid_jwt_token"))
  = (Ok {| userId := js "user_123"; email := js "test@example.com" |},
     [js "valid_jwt_token"]).
Proof. reflexivity. Qed.

Example validateJWT_expired :
  fst (run (fun jwt => Resolved {| data_user := None;
                                   error := Some {| message := js "JWT expired" |} |})
         (validateJWT (js "expired_jwt_token")))
  = Rejected (js "JWT expired").
Proof. reflexivity. Qed.

Example validateJWT_empty getUser :
  run getUser (validateJWT (js "")) = (MissingToken, []).
Proof. reflexivity. Qed.



(** The scenarios of the test suite on the reference platform. *)
Example extractJWTFromURL_present :
  @extractJWTFromURL Reference.platform (js "ws://localhost:8000/ws?token=abc123")
  = Some (js "abc123").
Proof. reflexivity. Qed.

Example extractJWTFromURL_absent :
  @extractJWTFromURL Reference.platform (js "ws://localhost:8000/ws") = None.
Proof. reflexivity. Qed.

Example extractJWTFromURL_malformed :
  @extractJWTFromURL Reference.platform (js "not-a-url") = None.
Proof. reflexivity. Qed.

End Authenticator.

(* ===================================================================== *)
(** * Properties of the validators *)
(* ===================================================================== *)

Section Validators.
Import Js UnifiedTypes Fixtures.

Lemma eqb_js (s t : string) : eqb (js s) (js t) = String.eqb s t.
Proof.
  destruct (String.eqb_spec s t) as [->|Hne]; [apply eqb_refl|].
  apply eqb_neq. intros Heq. by apply js_inj in Heq.
Qed.

Lemma In_push_if (x : Str) (cond : bool) (message : string) (errors : list Str) :
  In x (push_if cond message errors) <-> In x errors \/ (cond = true /\ x = js message).
Proof.
  unfold push_if. destruct cond.
  - rewrite in_app_iff. cbn. intuition.
  - intuition congruence.
Qed.

Lemma isValid_result_of (errors : list Str) :
  isValid (result_of errors) = true <-> errors = [].
Proof. unfold result_of. cbn. by destruct errors. Qed.

Lemma reported_invalid (x : Str) (errors : list Str) :
  In x errors -> isValid (result_of errors) = false.
Proof. by destruct errors. Qed.

Lemma object_shaped_guard (v : Value) :
  object_shaped v = true ->
  forall type, type = "object"%string ->
  negb (truthy v) || negb (typeof_is v type) = false.
Proof.
  unfold object_shaped, typeof_is. intros Hv type ->. by apply negb_true_iff in Hv.
Qed.


Lemma In_push_if_same (cond : bool) (message : string) (errors : list Str) :
  In (js message) (push_if cond message errors)
  <-> In (js message) errors \/ cond = true.
Proof. rewrite In_push_if. intuition. Qed.

Lemma In_push_if_other (x : string) (cond : bool) (message : string) (errors : list Str) :
  x ≠ message ->
  In (js x) (push_if cond message errors) <-> In (js x) errors.
Proof.
  intros Hne. rewrite In_push_if. split; [|tauto].
  intros [Hin|[_ Heq]]; [done|]. by apply js_inj in Heq.
Qed.

(** Membership of a message in the list a validator has built: the pushes
    of other messages do not matter. *)
Ltac reported :=
  repeat first
    [ rewrite In_push_if_same
    | rewrite In_push_if_other by discriminate ];
  cbn [In]; intuition congruence.

(** The two reports of [validateGameSession] on the completion instant. *)
Lemma completion_reports `{Platform} (session : Value) :
  object_shaped session = true ->
  (In (js "Completed sessions must have completed_at timestamp")
     (errors (validateGameSession session))
   <-> strict_eq (get session "status") (String (js "completed")) = true
       /\ truthy (get session "completed_at") = false)
  /\ (In (js "Non-completed sessions must not have completed_at timestamp")
        (errors (validateGameSession session))
      <-> strict_eq (get session "status") (String (js "completed")) = false
          /\ truthy (get session "completed_at") = true).
Proof.
  intros Hobject. unfold validateGameSession.
  rewrite (object_shaped_guard _ Hobject) by reflexivity. cbv zeta.
  unfold result_of. cbn [errors].
  destruct (strict_eq (get session "status") (String (js "completed")));
    destruct (truthy (get session "completed_at")); cbn [negb andb];
    split; reported.
Qed.

Lemma errors_invalid (validate : Value -> ValidationResult)
    (v : Value) (x : Str) (l : list Str) :
  validate v = result_of l -> In x (errors (validate v)) -> isValid (validate v) = false.
Proof. intros ->. apply reported_invalid. Qed.

Lemma validateGameSession_result `{Platform} (session : Value) :
  object_shaped session = true ->
  exists l, validateGameSession session = result_of l.
Proof.
  intros Hobject. unfold validateGameSession.
  rewrite (object_shaped_guard _ Hobject) by reflexivity. cbv zeta. eauto.
Qed.

(** What the source tests: [validateGameSession] reports "Completed
    sessions must have completed_at timestamp" exactly when the status is
    ["completed"] and [completed_at] is falsy ([null], [undefined], the
    empty string), and "Non-completed sessions must not have completed_at
    timestamp" exactly when the status is not ["completed"] and
    [completed_at] is truthy; in both cases the session is reported
    invalid. Presence is tested by truthiness, not by comparison with
    [null]. *)
Theorem completion_timestamp_by_truthiness `{Platform} (session : Value)
    (Hobject : object_shaped session = true) :
  let is_completed := strict_eq (get session "status") (String (js "completed")) in
  let present := truthy (get session "completed_at") in
  let reports message := In (js message) (errors (validateGameSession session)) in
  (reports "Completed sessions must have completed_at timestamp"%string
   <-> is_completed = true /\ present = false)
  /\ (reports "Non-completed sessions must not have completed_at timestamp"%string
      <-> is_completed = false /\ present = true)
  /\ (is_completed = true -> present = false ->
      isValid (validateGameSession session) = false)
  /\ (is_completed = false -> present = true ->
      isValid (validateGameSession session) = false).
Proof.
  cbv zeta.
  destruct (completion_reports session Hobject) as [Hmissing Hconverse].
  destruct (validateGameSession_result session Hobject) as [l Hl].
  split; [exact Hmissing|]. split; [exact Hconverse|]. split; intros Hc Hp.
  - eapply errors_invalid; [exact Hl|]. apply Hmissing. by split.
  - eapply errors_invalid; [exact Hl|]. apply Hconverse. by split.
Qed.

(** The same on the well-typed records: a completed session without
    completion instant, and a session of another status with a non-empty
    one. *)
Lemma validateGameSession_records `{Platform} (ref : positive) (g : GameSession.t) :
  (GameSession.status g = completed -> GameSession.completed_at g = None ->
   In (js "Completed sessions must have completed_at timestamp")
     (errors (validateGameSession (GameSession_value ref g))))
  /\ (GameSession.status g ≠ completed ->
      forall t, GameSession.completed_at g = Some t -> t ≠ [] ->
      In (js "Non-completed sessions must not have completed_at timestamp")
        (errors (validateGameSession (GameSession_value ref g)))).
Proof.
  destruct (completion_reports (GameSession_value ref g) eq_refl) as [Hmissing Hconverse].
  change (get (GameSession_value ref g) "status")
    with (SessionStatus_value (GameSession.status g)) in *.
  change (get (GameSession_value ref g) "completed_at")
    with (nullable (GameSession.completed_at g)) in *.
  split.
  - intros Hs Hc. apply Hmissing. by rewrite Hs, Hc.
  - intros Hs t Hc Ht. apply Hconverse. rewrite Hc. split.
    + by destruct (GameSession.status g).
    + by destruct t.
Qed.

Lemma completion_timestamp_by_truthiness_witness :
  let missing := @validateGameSession Reference.platform
                   (GameSession_value 1 (sessionWith completed None)) in
  let converse := @validateGameSession Reference.platform
                    (GameSession_value 1
                       (sessionWith in_progress (Some (js "2025-06-05T12:00:00.000Z")))) in
  (In (js "Completed sessions must have completed_at timestamp") (errors missing)
   /\ isValid missing = false)
  /\ (In (js "Non-completed sessions must not have completed_at timestamp") (errors converse)
      /\ isValid converse = false).
Proof.
  split.
  - pose proof (@completion_timestamp_by_truthiness Reference.platform
                  (GameSession_value 1 (sessionWith completed None)) eq_refl) as Hc.
    cbv zeta in Hc. destruct Hc as [Hreport [_ [Hinvalid _]]].
    split; [apply Hreport; split; reflexivity | apply Hinvalid; reflexivity].
  - pose proof (@completion_timestamp_by_truthiness Reference.platform
                  (GameSession_value 1
                     (sessionWith in_progress (Some (js "2025-06-05T12:00:00.000Z"))))
                  eq_refl) as Hc.
    cbv zeta in Hc. destruct Hc as [_ [Hreport [_ Hinvalid]]].
    split; [apply Hreport; split; reflexivity | apply Hinvalid; reflexivity].
Defined.

(** On every platform the empty string as completion instant is read like
    [null]: the result is that of the same session without one. *)
Lemma empty_instant_reads_as_null `{Platform} (ref : positive) (g : GameSession.t) :
  GameSession.completed_at g = Some (js "") ->
  validateGameSession (GameSession_value ref g)
  = validateGameSession
      (GameSession_value ref
         {| GameSession.id := GameSession.id g;
            GameSession.player1_id := GameSession.player1_id g;
            GameSession.player2_id := GameSession.player2_id g;
            GameSession.game_type := GameSession.game_type g;
            GameSession.status := GameSession.status g;
            GameSession.winner_id := GameSession.winner_id g;
            GameSession.created_at := GameSession.created_at g;
            GameSession.updated_at := GameSession.updated_at g;
            GameSession.completed_at := None |}).
Proof.
  destruct g as [i p1 p2 gt st w c u ca]. cbn [GameSession.completed_at].
  intros ->. reflexivity.
Qed.

(** C9, the failing input: a session in progress whose [completed_at] is
    the empty string, a value of its type [string | null] that is not [null],
    is accepted with no violation at all, neither the one on the completion
    instant nor the one on its date format. The source says of this test
    that it matches the database constraint, which is
    [status != 'completed' AND completed_at IS NULL], and it tests the other
    nullable fields ([winner_id], [read_at], [avatar_url]) by comparison
    with [null]. The same session with a non-empty instant is reported, and
    so is a completed session without one. *)
Lemma C9_empty_instant_accepted :
  let session completed_at :=
    GameSession_value 1 (sessionWith in_progress completed_at) in
  GameSession.completed_at (sessionWith in_progress (Some (js ""))) ≠ None
  /\ @validateGameSession Reference.platform (session (Some (js "")))
     = {| isValid := true; errors := [] |}
  /\ @validateGameSession Reference.platform
       (session (Some (js "2025-06-05T12:00:00.000Z")))
     = {| isValid := false;
          errors := [js "Non-completed sessions must not have completed_at timestamp"] |}
  /\ @validateGameSession Reference.platform
       (GameSession_value 1 (sessionWith completed None))
     = {| isValid := false;
          errors := [js "Completed sessions must have completed_at timestamp"] |}.
Proof. repeat split. discriminate. Qed.

(** Every status of the union with its completion instant set as the test
    suite sets it is valid on the reference platform. *)
Example validateGameSession_valid :
  Forall (fun s => @validateGameSession Reference.platform (GameSession_value 1 s)
                   = {| isValid := true; errors := [] |})
    [validGameSession; sessionWith invited None; sessionWith session_accepted None;
     sessionWith completed (Some (js "2025-06-05T12:00:00.000Z"))].
Proof. repeat constructor. Qed.

(** The two reports of [validateFriendship] on the accepted instant. *)
Lemma accepted_reports `{Platform} (friendship : Value) :
  object_shaped friendship = true ->
  (In (js "Accepted friendships must have accepted_at timestamp")
     (errors (validateFriendship friendship))
   <-> strict_eq (get friendship "status") (String (js "accepted")) = true
       /\ truthy (get friendship "accepted_at") = false)
  /\ (In (js "Invalid date format for accepted_at")
        (errors (validateFriendship friendship))
      <-> truthy (get friendship "accepted_at") = true
          /\ (typeof_is (get friendship "accepted_at") "string" = false
              \/ on_string isValidISODate (get friendship "accepted_at") = false)).
Proof.
  intros Hobject. unfold validateFriendship.
  rewrite (object_shaped_guard _ Hobject) by reflexivity. cbv zeta.
  unfold result_of. cbn [errors].
  destruct (strict_eq (get friendship "status") (String (js "accepted")));
    destruct (truthy (get friendship "accepted_at"));
    destruct (typeof_is (get friendship "accepted_at") "string");
    destruct (on_string isValidISODate (get friendship "accepted_at"));
    cbn [negb andb orb]; split; reported.
Qed.


(** With a status other than ["accepted"], the accepted instant bears on
    the result through its date format only: two friendships that agree on
    the other fields and on the outcome of that test have the same result. *)
Lemma accepted_frame `{Platform} (friendship other : Value) :
  object_shaped friendship = true ->
  object_shaped other = true ->
  strict_eq (get friendship "status") (String (js "accepted")) = false ->
  get other "id" = get friendship "id" ->
  get other "user1_id" = get friendship "user1_id" ->
  get other "user2_id" = get friendship "user2_id" ->
  get other "status" = get friendship "status" ->
  get other "created_at" = get friendship "created_at" ->
  truthy (get other "accepted_at")
  && (negb (typeof_is (get other "accepted_at") "string")
      || negb (on_string isValidISODate (get other "accepted_at")))
  = truthy (get friendship "accepted_at")
    && (negb (typeof_is (get friendship "accepted_at") "string")
        || negb (on_string isValidISODate (get friendship "accepted_at"))) ->
  validateFriendship other = validateFriendship friendship.
Proof.
  intros Hobject Hother Hstatus Hid Hu1 Hu2 Hs Hc Hformat. unfold validateFriendship.
  rewrite (object_shaped_guard _ Hobject), (object_shaped_guard _ Hother)
    by reflexivity.
  cbv zeta. rewrite Hid, Hu1, Hu2, Hs, Hc, Hformat, Hstatus. reflexivity.
Qed.


(** The same on the well-typed records: an accepted friendship without
    accepted instant is reported; a friendship of another status that
    carries a well-formed accepted instant gets the result of the same
    friendship without one. *)
Lemma validateFriendship_records `{Platform} (ref : positive) (f : Friendship.t) :
  (Friendship.status f = accepted -> Friendship.accepted_at f = None ->
   In (js "Accepted friendships must have accepted_at timestamp")
     (errors (validateFriendship (Friendship_value ref f))))
  /\ (Friendship.status f ≠ accepted ->
      ~ In (js "Accepted friendships must have accepted_at timestamp")
          (errors (validateFriendship (Friendship_value ref f))))
  /\ (Friendship.status f ≠ accepted ->
      forall t, Friendship.accepted_at f = Some t -> isValidISODate t = true ->
      validateFriendship (Friendship_value ref f)
      = validateFriendship
          (Friendship_value ref
             {| Friendship.id := Friendship.id f;
                Friendship.user1_id := Friendship.user1_id f;
                Friendship.user2_id := Friendship.user2_id f;
                Friendship.status := Friendship.status f;
                Friendship.created_at := Friendship.created_at f;
                Friendship.accepted_at := None |})).
Proof.
  destruct (accepted_reports (Friendship_value ref f) eq_refl) as [Hmissing _].
  change (get (Friendship_value ref f) "status")
    with (FriendshipStatus_value (Friendship.status f)) in *.
  change (get (Friendship_value ref f) "accepted_at")
    with (nullable (Friendship.accepted_at f)) in *.
  split; [|split].
  - intros Hs Ha. apply Hmissing. by rewrite Hs, Ha.
  - intros Hs Hin. apply Hmissing in Hin as [Hin _].
    by destruct (Friendship.status f).
  - intros Hs t Ha Ht. apply accepted_frame; try reflexivity.
    + by destruct (Friendship.status f).
    + change (truthy (nullable (Friendship.accepted_at f))
              && (negb (typeof_is (nullable (Friendship.accepted_at f)) "string")
                  || negb (on_string isValidISODate (nullable (Friendship.accepted_at f))))
              = false).
      rewrite Ha. cbn [nullable on_string]. rewrite Ht.
      unfold typeof_is. cbn [typeof]. rewrite eqb_refl. apply andb_false_r.
Qed.



Lemma Qltb_lt (a b : Q) : Qltb a b = true <-> (a < b)%Q.
Proof.
  unfold Qltb. rewrite negb_true_iff. split.
  - intros Hle. apply Qnot_le_lt. intros Hba. apply Qle_bool_iff in Hba. congruence.
  - intros Hlt. destruct (Qle_bool b a) eqn:Hle; [|done].
    apply Qle_bool_iff in Hle. by apply Qlt_not_le in Hlt.
Qed.

(** The test the validator applies to [moveData.position]. *)
Lemma position_test (position : Value) :
  negb (typeof_is position "number")
  || on_number (fun p => num_ltb p (num_of_Z 0)) position
  || on_number (fun p => num_ltb (num_of_Z 8) p) position = false
  <-> exists n, position = Number n
        /\ num_ltb n (num_of_Z 0) = false /\ num_ltb (num_of_Z 8) n = false.
Proof.
  destruct position as [| |b|n|s|r l q|r l];
    try (split; [discriminate | by intros (? & ? & _)]).
  unfold typeof_is. cbn [typeof on_number]. rewrite eqb_refl. cbn [negb orb].
  rewrite orb_false_iff. split.
  - intros [? ?]. by exists n.
  - by intros (? & [= <-] & ? & ?).
Qed.

(** C4 (as the source has it): for a payload of game type ["tic_tac_toe"]
    with move data, the validator reports "Tic-tac-toe position must be a
    number between 0 and 8", and the payload invalid, exactly when
    [moveData.position] is not a number, or is a number below 0 or above 8.
    It does not test that the number is an integer: every number from 0 to 8,
    integral or not, passes, and so does NaN. The integers 0 to 8 pass; -1,
    9, 10 and 100, as every integer outside 0..8, are reported. *)
Theorem C4_position_range (payload : Value)
    (Hobject : object_shaped payload = true)
    (Hkind : strict_eq (get payload "gameType") (String (js "tic_tac_toe")) = true)
    (Hmove : truthy (get payload "moveData") = true) :
  let position := get (get payload "moveData") "position" in
  let reported :=
    In (js "Tic-tac-toe position must be a number between 0 and 8")
      (errors (validateGameMovePayload payload)) in
  (reported <-> ~ exists n, position = Number n
                  /\ num_ltb n (num_of_Z 0) = false /\ num_ltb (num_of_Z 8) n = false)
  /\ (forall q, position = Number (Finite q) -> reported <-> (q < 0 \/ 8 < q)%Q)
  /\ (forall z, position = Number (num_of_Z z) -> reported <-> (z < 0 \/ 8 < z)%Z)
  /\ (position = Number NaN -> ~ reported)
  /\ (reported -> isValid (validateGameMovePayload payload) = false).
Proof.
  intros position reported.
  assert (reported <-> ~ exists n, position = Number n
            /\ num_ltb n (num_of_Z 0) = false /\ num_ltb (num_of_Z 8) n = false)
    as Hreported.
  { rewrite <- position_test. subst reported position.
    unfold validateGameMovePayload.
    rewrite (object_shaped_guard _ Hobject) by reflexivity. cbv zeta.
    rewrite Hkind, Hmove. cbn [andb]. unfold result_of. cbn [errors].
    destruct (negb (typeof_is (get (get payload "moveData") "position") "number")
              || on_number (fun p => num_ltb p (num_of_Z 0))
                   (get (get payload "moveData") "position")
              || on_number (fun p => num_ltb (num_of_Z 8) p)
                   (get (get payload "moveData") "position")); reported. }
  split; [exact Hreported|]. split; [|split; [|split]].
  - intros q Hq. rewrite Hreported, Hq. split.
    + intros Hnone.
      destruct (Qltb q 0) eqn:Hlow; [left; by apply Qltb_lt|].
      destruct (Qltb 8 q) eqn:Hhigh; [right; by apply Qltb_lt|].
      exfalso. apply Hnone. by exists (Finite q).
    + intros Hout (n & [= <-] & Hlow & Hhigh). cbn in Hlow, Hhigh.
      destruct Hout as [Hout|Hout]; apply Qltb_lt in Hout;
        [change 0%Q with (inject_Z 0) in Hout | change 8%Q with (inject_Z 8) in Hout];
        congruence.
  - intros z Hz. rewrite Hreported, Hz. unfold num_of_Z. split.
    + intros Hnone.
      destruct (Z.ltb_spec z 0) as [?|Hlow]; [by left|].
      destruct (Z.ltb_spec 8 z) as [?|Hhigh]; [by right|].
      exfalso. apply Hnone. exists (Finite (inject_Z z)). split; [done|]. cbn.
      split; (destruct (Qltb _ _) eqn:Hlt; [|done]); apply Qltb_lt in Hlt;
        rewrite <- Zlt_Qlt in Hlt; lia.
    + intros Hout (n & [= <-] & Hlow & Hhigh). cbn in Hlow, Hhigh.
      destruct Hout as [Hout|Hout]; rewrite Zlt_Qlt in Hout; apply Qltb_lt in Hout;
        congruence.
  - intros Hnan. rewrite Hreported, Hnan. intros Hnone. apply Hnone.
    by exists NaN.
  - subst reported. unfold validateGameMovePayload.
    rewrite (object_shaped_guard _ Hobject) by reflexivity. cbv zeta.
    apply reported_invalid.
Qed.

Lemma C4_position_range_witness :
  ~ In (js "Tic-tac-toe position must be a number between 0 and 8")
      (errors (validateGameMovePayload (movePayloadWith (Number (num_of_Z 8)))))
  /\ In (js "Tic-tac-toe position must be a number between 0 and 8")
       (errors (validateGameMovePayload (movePayloadWith (Number (num_of_Z 9))))).
Proof.
  split.
  - pose proof (C4_position_range (movePayloadWith (Number (num_of_Z 8)))
                  eq_refl eq_refl eq_refl) as Hc.
    cbv zeta in Hc. destruct Hc as [_ [_ [Hint _]]].
    rewrite (Hint 8%Z eq_refl). lia.
  - pose proof (C4_position_range (movePayloadWith (Number (num_of_Z 9)))
                  eq_refl eq_refl eq_refl) as Hc.
    cbv zeta in Hc. destruct Hc as [_ [_ [Hint _]]].
    rewrite (Hint 9%Z eq_refl). lia.
Defined.

(** C4, the claim as stated fails: 4.5 is not an integer and the payload
    that carries it as position is reported valid. *)
Lemma C4_fraction_accepted :
  is_integer (Finite (9 # 2)) = false
  /\ validateGameMovePayload (movePayloadWith (Number (Finite (9 # 2))))
     = {| isValid := true; errors := [] |}.
Proof. split; reflexivity. Qed.

(** The boundary tests of the suite. *)
Example validateGameMovePayload_positions :
  Forall (fun z => validateGameMovePayload (movePayloadWith (Number (num_of_Z z)))
                   = {| isValid := true; errors := [] |})
    [0; 1; 2; 3; 4; 5; 6; 7; 8]%Z
  /\ Forall (fun z => validateGameMovePayload (movePayloadWith (Number (num_of_Z z)))
                      = {| isValid := false;
                           errors := [js "Tic-tac-toe position must be a number between 0 and 8"] |})
       [-1; 9; 10; 100]%Z.
Proof. split; repeat constructor. Qed.

End Validators.

(* ===================================================================== *)
(** * Further properties of the connection manager *)
(* ===================================================================== *)

Section RegistryLaws.
Import Js WebsocketAuth.

Lemma hasConnection_false (m : Connections) u :
  fst (hasConnection u m) = false <-> m !! u = None.
Proof.
  cbn. rewrite bool_decide_eq_false. rewrite eq_None_not_Some. done.
Qed.

(** [removeConnection] of a user who has no connection changes nothing. *)
Theorem removeConnection_absent (m : Connections) (u : Str)
    (Habsent : fst (hasConnection u m) = false) :
  snd (removeConnection u m) = m.
Proof. cbn. apply delete_id. by apply hasConnection_false. Qed.

Lemma removeConnection_absent_witness :
  snd (removeConnection (js "user_456") (snd (addConnection (js "user_123") 1%positive ∅)))
  = snd (addConnection (js "user_123") 1%positive ∅).
Proof.
  apply (removeConnection_absent (snd (addConnection (js "user_123") 1%positive ∅))
           (js "user_456")).
  reflexivity.
Defined.

(** [addConnection] followed by [removeConnection] for the same user leaves
    the user without a connection and the other users as they were; when the
    user had no connection before, the manager is back in the state it
    started from. *)
Theorem add_then_remove (m : Connections) (u : Str) (c : WebSocket) :
  let after := snd ((addConnection u c;; removeConnection u) m) in
  fst (hasConnection u after) = false
  /\ fst (getConnection u after) = None
  /\ (forall v, u ≠ v -> fst (getConnection v after) = fst (getConnection v m))
  /\ (fst (hasConnection u m) = false -> after = m).
Proof.
  unfold mbind, Method_bind, andThen, addConnection, removeConnection. cbn.
  repeat split.
  - apply bool_decide_eq_false. rewrite lookup_delete_eq. by intros [? ?].
  - apply lookup_delete_eq.
  - intros v Hne. by rewrite lookup_delete_ne, lookup_insert_ne.
  - intros Habsent. apply delete_insert_id. by apply hasConnection_false.
Qed.

(** One connection per user: in the snapshot [getAllConnections] returns
    after [addConnection(u, c)] the user [u] is present with [c], and the
    snapshot has one entry more than before when [u] had no connection and
    as many as before when [c] replaced one. *)
Theorem snapshot_after_add (m : Connections) (u : Str) (c : WebSocket) :
  let snapshot := fst (getAllConnections (snd (addConnection u c m))) in
  snapshot !! u = Some c
  /\ size snapshot = (if fst (hasConnection u m) then size m else S (size m)).
Proof.
  cbn. split; [apply lookup_insert_eq|].
  rewrite map_size_insert.
  case_bool_decide as Hu.
  - by destruct Hu as [w ->].
  - apply eq_None_not_Some in Hu. by rewrite Hu.
Qed.

End RegistryLaws.

(* ===================================================================== *)
(** * Further properties of the authenticator, the ordering and the
      transformers *)
(* ===================================================================== *)

Section AuthenticatorLaws.
Import Js WebsocketAuth.

(** [validateJWT] succeeds only on the word of the provider: the result is
    [Ok] exactly when the token is not blank and the provider's response has
    a user and no error, and then it carries that user's id and email. An
    error in the response wins over a user that comes with it. *)
Theorem validateJWT_ok_iff (t : Str) (getUser : Str -> Settled) (d : AuthData) :
  fst (run getUser (validateJWT t)) = Ok d
  <-> forallb is_whitespace t = false
      /\ exists u, getUser t = Resolved {| data_user := Some u; error := None |}
                   /\ d = {| userId := user_id u; email := user_email u |}.
Proof.
  unfold validateJWT. rewrite missing_guard.
  destruct (forallb is_whitespace t); cbn.
  - split; [discriminate | by intros [? _]].
  - destruct (getUser t) as [[[u|] [e|]]|[m|m]]; cbn; split;
      try discriminate; try (by intros [_ (? & ? & _)]).
    + intros [= <-]. eauto.
    + by intros [_ (u' & [= <-] & ->)].
Qed.

End AuthenticatorLaws.

Section OrderingLaws.
Import Js UnifiedTypes UnifiedTypes.MessageTransformer.

(** [ensureFriendshipOrdering] is idempotent and never returns a descending
    pair, equal identifiers included; its result is one of the two pairs
    [getFriendshipQueryPairs] lists, in whichever order the two identifiers
    are given to either function. *)
Theorem ordering_stable (a b : Str) :
  let pair := ensureFriendshipOrdering a b in
  ensureFriendshipOrdering (fst pair) (snd pair) = pair
  /\ ltb (snd pair) (fst pair) = false
  /\ In pair (getFriendshipQueryPairs a b)
  /\ In pair (getFriendshipQueryPairs b a)
  /\ In (ensureFriendshipOrdering b a) (getFriendshipQueryPairs a b).
Proof.
  unfold ensureFriendshipOrdering, getFriendshipQueryPairs.
  destruct (ltb a b) eqn:Hab; cbn.
  - rewrite Hab, (ltb_asym _ _ Hab). cbn. intuition.
  - rewrite Hab. destruct (ltb b a) eqn:Hba; cbn; rewrite ?Hab, ?Hba; [intuition|].
    assert (a = b) as ->.
    { destruct (decide (a = b)) as [|Hne]; [done|].
      destruct (ltb_total a b Hne); congruence. }
    intuition.
Qed.

(** Envelope to record and back: storing a chat envelope as a record (the
    draft completed with the envelope's timestamp) and transforming the
    record again gives the envelope's payload, sender and timestamp, with
    the generated id as [messageId] and the type [chat]; it is the envelope
    itself exactly when that was a chat envelope with that [messageId]. *)
Theorem chat_envelope_round_trip (m : RealtimeMessage.t ChatPayload.t)
    (generatedId : Str) (read_at : option Str) :
  let back := chatRecordToRealtime
                (completeDraft (realtimeChatToRecord m generatedId)
                   (RealtimeMessage.timestamp m) read_at) in
  back = {| RealtimeMessage.type := chat;
            RealtimeMessage.payload := RealtimeMessage.payload m;
            RealtimeMessage.userId := RealtimeMessage.userId m;
            RealtimeMessage.timestamp := RealtimeMessage.timestamp m;
            RealtimeMessage.messageId := Some generatedId |}
  /\ (back = m <-> RealtimeMessage.type m = chat
                   /\ RealtimeMessage.messageId m = Some generatedId).
Proof.
  destruct m as [type [content receiver kind] user time mid]. cbn. split; [done|].
  split.
  - by intros [= <- <-].
  - by intros [-> ->].
Qed.

End OrderingLaws.

(* ===================================================================== *)
(** * Regular expressions: the test decides the language *)
(* ===================================================================== *)

Section RegexLaws.
Import Js UnifiedTypes Regex.

Lemma matches_seq a b s :
  Matches (Seq a b) s <-> exists s1 s2, s = s1 ++ s2 /\ Matches a s1 /\ Matches b s2.
Proof.
  split.
  - inversion 1; subst. eauto.
  - intros (s1 & s2 & -> & H1 & H2). by constructor.
Qed.

Lemma matches_class p s :
  Matches (Class p) s <-> exists c, s = [c] /\ p c = true.
Proof.
  split.
  - inversion 1; subst. eauto.
  - intros (c & -> & Hc). by constructor.
Qed.

Lemma matches_alt a b s : Matches (Alt a b) s <-> Matches a s \/ Matches b s.
Proof.
  split.
  - inversion 1; subst; auto.
  - intros [H|H]; [by apply MAltL | by apply MAltR].
Qed.

Lemma nullable_spec r : nullable r = true <-> Matches r [].
Proof.
  split.
  - induction r; cbn; intros Hn; try discriminate.
    + constructor.
    + apply orb_true_iff in Hn as [Hn|Hn]; [apply MAltL | apply MAltR]; auto.
    + apply andb_true_iff in Hn as [Ha Hb].
      change (@nil N) with (@nil N ++ []). constructor; auto.
    + constructor.
  - intros H. remember [] as s eqn:Hs. induction H; cbn; try done.
    + rewrite IHMatches by done. done.
    + rewrite IHMatches by done. apply orb_true_r.
    + apply app_eq_nil in Hs as [-> ->]. by rewrite IHMatches1, IHMatches2.
Qed.

Lemma matches_star_cons a c s :
  Matches (Star a) (c :: s) ->
  exists s1 s2, s = s1 ++ s2 /\ Matches a (c :: s1) /\ Matches (Star a) s2.
Proof.
  intros H. remember (Star a) as r eqn:Hr. remember (c :: s) as cs eqn:Hcs.
  revert s Hcs.
  induction H as [| | | | | |a' s1 t H1 IH1 H2 IH2]; intros s0 Hcs; try discriminate.
  injection Hr as ->. destruct s1 as [|x s1]; cbn in Hcs.
  - by apply IH2.
  - injection Hcs as -> <-. eauto.
Qed.

Lemma deriv_spec c r s : Matches (deriv c r) s <-> Matches r (c :: s).
Proof.
  revert s. induction r as [| |p|a IHa b IHb|a IHa b IHb|a IHa]; intros s; cbn.
  - split; inversion 1.
  - split; inversion 1.
  - destruct (p c) eqn:Hp; split.
    + inversion 1; subst. by constructor.
    + inversion 1; subst. constructor.
    + inversion 1.
    + inversion 1; subst. congruence.
  - rewrite !matches_alt, IHa, IHb. done.
  - destruct (nullable a) eqn:Hn.
    + rewrite matches_alt, !matches_seq. split.
      * intros [(s1 & s2 & -> & H1 & H2)|H].
        -- exists (c :: s1), s2. by rewrite <- IHa.
        -- exists [], (c :: s). rewrite <- IHb. by rewrite <- nullable_spec.
      * intros ([|x s1] & s2 & Heq & H1 & H2); cbn in Heq.
        -- right. subst s2. by apply IHb.
        -- injection Heq as <- ->. left. exists s1, s2. by rewrite IHa.
    + rewrite !matches_seq. split.
      * intros (s1 & s2 & -> & H1 & H2). exists (c :: s1), s2. by rewrite <- IHa.
      * intros ([|x s1] & s2 & Heq & H1 & H2); cbn in Heq.
        -- apply nullable_spec in H1. congruence.
        -- injection Heq as <- ->. exists s1, s2. by rewrite IHa.
  - rewrite matches_seq. split.
    + intros (s1 & s2 & -> & H1 & H2).
      change (c :: s1 ++ s2) with ((c :: s1) ++ s2). constructor; [by apply IHa|done].
    + intros H. apply matches_star_cons in H as (s1 & s2 & -> & H1 & H2).
      exists s1, s2. by rewrite IHa.
Qed.

(** [Regex.test] decides membership in the language of the pattern. *)
Lemma test_spec r s : test r s = true <-> Matches r s.
Proof.
  revert r. induction s as [|c s IH]; intros r; cbn.
  - apply nullable_spec.
  - by rewrite IH, deriv_spec.
Qed.

Lemma matches_star_class p s :
  Matches (Star (Class p)) s <-> forallb p s = true.
Proof.
  split.
  - intros H. remember (Star (Class p)) as r eqn:Hr.
    induction H as [| | | | | |a s1 t H1 IH1 H2 IH2]; try discriminate; [done|].
    injection Hr as ->. apply matches_class in H1 as (c & -> & Hc). cbn.
    by rewrite Hc, IH2.
  - induction s as [|c s IH]; cbn; [constructor|].
    intros [Hc Hs]%andb_true_iff.
    change (c :: s) with ([c] ++ s). constructor; [by constructor|auto].
Qed.

Lemma matches_plus_class p s :
  Matches (Plus (Class p)) s <-> s ≠ [] /\ forallb p s = true.
Proof.
  unfold Plus. rewrite matches_seq. split.
  - intros (s1 & s2 & -> & H1 & H2). apply matches_class in H1 as (c & -> & Hc).
    apply matches_star_class in H2. cbn. by rewrite Hc, H2.
  - intros [Hne Hall]. destruct s as [|c s]; [done|].
    cbn in Hall. apply andb_true_iff in Hall as [Hc Hs].
    exists [c], s. split; [done|]. split; [by constructor|by apply matches_star_class].
Qed.

(** [isValidEmail] accepts exactly the strings [local@domain.tld] whose
    three parts are non-empty and free of white space and of [@]; the
    domain and the last part may themselves contain dots. *)
Theorem isValidEmail_spec (email : Str) :
  isValidEmail email = true
  <-> exists local domain tld,
        email = local ++ [64%N] ++ domain ++ [46%N] ++ tld
        /\ local ≠ [] /\ domain ≠ [] /\ tld ≠ []
        /\ forallb not_space_or_at (local ++ domain ++ tld) = true.
Proof.
  unfold isValidEmail, emailRegex. rewrite test_spec. split.
  - intros H.
    apply matches_seq in H as (local & r1 & -> & Hlocal & H).
    apply matches_seq in H as (at_ & r2 & -> & Hat & H).
    apply matches_seq in H as (domain & r3 & -> & Hdomain & H).
    apply matches_seq in H as (dot & tld & -> & Hdot & Htld).
    apply matches_class in Hat as (c & -> & ->%N.eqb_eq).
    apply matches_class in Hdot as (c & -> & ->%N.eqb_eq).
    apply matches_plus_class in Hlocal as [? Hl], Hdomain as [? Hd], Htld as [? Ht].
    exists local, domain, tld. rewrite !forallb_app, Hl, Hd, Ht. done.
  - intros (local & domain & tld & -> & Hl & Hd & Ht & Hall).
    rewrite !forallb_app, !andb_true_iff in Hall. destruct Hall as (? & ? & ?).
    repeat (constructor; try (by apply matches_plus_class)).
Qed.

End RegexLaws.

(* ===================================================================== *)
(** * Further properties of the validators *)
(* ===================================================================== *)

(** The messages of each validator, in the order of the source. *)
Module Messages.
Local Open Scope string_scope.

Definition validateUserProfile : list string :=
  ["Profile must be an object"; "Invalid UUID format for id"; "Invalid email format";
   "Display name cannot be empty"; "Avatar URL must be a string or null";
   "Invalid date format for created_at"; "Invalid date format for updated_at"].

Definition validateFriendship : list string :=
  ["Friendship must be an object"; "Invalid UUID format for id";
   "Invalid UUID format for user1_id"; "Invalid UUID format for user2_id";
   "Users cannot be friends with themselves"; "Invalid friendship status";
   "Invalid date format for created_at";
   "Accepted friendships must have accepted_at timestamp";
   "Invalid date format for accepted_at"].

Definition validateGameSession : list string :=
  ["Game session must be an object"; "Invalid UUID format for id";
   "Invalid UUID format for player1_id"; "Invalid UUID format for player2_id";
   "Players cannot play against themselves"; "Invalid game type";
   "Invalid session status"; "Invalid UUID format for winner_id";
   "Winner must be one of the players"; "Invalid date format for created_at";
   "Invalid date format for updated_at";
   "Completed sessions must have completed_at timestamp";
   "Non-completed sessions must not have completed_at timestamp";
   "Invalid date format for completed_at"].

Definition validateTicTacToeGame : list string :=
  ["Tic-tac-toe game must be an object"; "Invalid UUID format for session_id";
   "Tic-tac-toe board must have exactly 9 positions";
   "Board positions must be 'X', 'O', or empty string";
   "Invalid UUID format for current_turn"].

Definition validateChatMessageRecord : list string :=
  ["Message must be an object"; "Invalid UUID format for id";
   "Invalid UUID format for sender_id"; "Invalid UUID format for receiver_id";
   "Sender and receiver cannot be the same user"; "Message content cannot be empty";
   "Message content exceeds maximum length of 5000 characters";
   "Invalid message type"; "Invalid date format for created_at";
   "Invalid date format for read_at"].

Definition validateRealtimeMessage : list string :=
  ["Message must be an object"; "Invalid message type"; "Payload must be an object";
   "Invalid UUID format for userId"; "Invalid date format for timestamp";
   "Invalid UUID format for messageId"].

Definition validateChatPayload : list string :=
  ["Chat payload must be an object"; "Content must be a non-empty string";
   "Invalid UUID format for receiverId"; "Invalid message type"].

Definition validateGameMovePayload : list string :=
  ["Game move payload must be an object"; "Invalid UUID format for sessionId";
   "Invalid game type"; "Move data must be an object";
   "Tic-tac-toe position must be a number between 0 and 8";
   "Invalid UUID format for player"; "Board state must be an array of 9 elements"].

End Messages.

(** A result whose [isValid] says that [errors] is empty and whose errors
    are a selection, in order and without repetition, of the given messages. *)
Definition collects (messages : list string) (r : UnifiedTypes.ValidationResult) : Prop :=
  (UnifiedTypes.isValid r = true <-> UnifiedTypes.errors r = [])
  /\ sublist (UnifiedTypes.errors r) (List.map Js.js messages)
  /\ NoDup (UnifiedTypes.errors r).

(** A cell of a board: one of the strings ["X"], ["O"] and [""]. *)
Definition board_cell (v : Js.Value) : bool :=
  UnifiedTypes.typeof_is v "string" && Js.includes ["X"; "O"; ""]%string v.

(** The upper-case form of an ASCII letter; other code units are kept. *)
Definition ascii_upper (c : N) : N :=
  if ((97 <=? c) && (c <=? 122))%N then (c - 32)%N else c.

Section ValidatorLaws.
Import Js UnifiedTypes Fixtures.

(** Membership of a message in the list a validator has built. *)
Ltac reported :=
  repeat first
    [ rewrite In_push_if_same
    | rewrite In_push_if_other by discriminate ];
  cbn [In]; intuition congruence.

Lemma push_if_nil (cond : bool) (message : string) (errors : list Str) :
  push_if cond message errors = [] <-> cond = false /\ errors = [].
Proof.
  unfold push_if. destruct cond.
  - split; [|by intros [? _]]. by destruct errors.
  - tauto.
Qed.

Lemma check_positions_nil (board : list Value) (errors : list Str) :
  check_positions board errors = [] <-> errors = [] /\ forallb board_cell board = true.
Proof.
  unfold board_cell. induction board as [|p board IH]; cbn; [tauto|].
  destruct (typeof_is p "string"); destruct (includes _ p); cbn;
    rewrite ?IH; try tauto;
    (split; [by destruct errors | by intros [_ ?]]).
Qed.

Lemma sublist_push_if (cond : bool) (message : string) (errors table : list Str) :
  sublist errors table -> sublist (push_if cond message errors) (table ++ [js message]).
Proof.
  intros Hsub. unfold push_if. destruct cond.
  - by apply sublist_app.
  - by apply sublist_inserts_r.
Qed.

Lemma sublist_check_positions (board : list Value) (errors table : list Str) :
  sublist errors table ->
  sublist (check_positions board errors)
    (table ++ [js "Board positions must be 'X', 'O', or empty string"]).
Proof.
  intros Hsub. induction board as [|p board IH]; cbn.
  - by apply sublist_inserts_r.
  - destruct (_ || _); [by apply sublist_app|done].
Qed.

(** The table of messages built the way the validators build their list. *)
Lemma fold_snoc (messages : list string) (table : list Str) :
  fold_left (fun table m => table ++ [js m]) messages table
  = table ++ List.map js messages.
Proof.
  revert table. induction messages as [|m messages IH]; intros table; cbn.
  - by rewrite app_nil_r.
  - by rewrite IH, <- app_assoc.
Qed.

Lemma table_snoc (messages : list string) :
  List.map js messages = fold_left (fun table m => table ++ [js m]) messages [].
Proof. by rewrite fold_snoc. Qed.

Lemma NoDup_table (messages : list string) :
  NoDup messages -> NoDup (List.map js messages).
Proof.
  induction 1 as [|m messages Hm Hnd IH]; cbn; constructor; [|done].
  rewrite list_elem_of_In, in_map_iff. intros (m' & Heq & Hin).
  apply js_inj in Heq as ->. by apply list_elem_of_In in Hin.
Qed.

(** The errors pushed so far are a selection of the messages so far. *)
Ltac in_order :=
  repeat first
    [ apply sublist_nil_l
    | apply sublist_push_if
    | apply sublist_check_positions
    | match goal with
      | |- sublist (if ?c then _ else _) _ => destruct c
      end
    | apply sublist_inserts_r ].

Ltac distinct_messages :=
  repeat (constructor; [rewrite list_elem_of_In; cbn; intuition discriminate|]);
  constructor.

Lemma collects_guard (message : string) (rest : list string) :
  collects (message :: rest) {| isValid := false; errors := [js message] |}.
Proof.
  split; [done|]. split; cbn; [apply sublist_skip, sublist_nil_l | apply NoDup_singleton].
Qed.

Lemma collects_result (message : string) (rest : list string) (l : list Str) :
  NoDup rest ->
  sublist l (fold_left (fun table m => table ++ [js m]) rest []) ->
  collects (message :: rest) (result_of l).
Proof.
  intros Hnd Hsub. rewrite <- table_snoc in Hsub.
  split; [apply isValid_result_of|]. split; [by apply sublist_cons|].
  eapply sublist_NoDup; [|exact Hsub]. by apply NoDup_table.
Qed.

Ltac collects_all :=
  match goal with
  | |- context [if ?guard then _ else _] => destruct guard
  end;
  [ apply collects_guard
  | cbv zeta; apply collects_result;
    [ distinct_messages | cbn [fold_left]; in_order ] ].

(** Every validator collects: on every input, [isValid] holds exactly when
    the list of errors is empty, and the errors are a selection of the
    validator's messages in the order of the source, none of them twice. *)
Theorem validators_collect `{Platform} (v : Value) :
  collects Messages.validateUserProfile (validateUserProfile v)
  /\ collects Messages.validateFriendship (validateFriendship v)
  /\ collects Messages.validateGameSession (validateGameSession v)
  /\ collects Messages.validateTicTacToeGame (validateTicTacToeGame v)
  /\ collects Messages.validateChatMessageRecord (validateChatMessageRecord v)
  /\ collects Messages.validateRealtimeMessage (validateRealtimeMessage v)
  /\ collects Messages.validateChatPayload (validateChatPayload v)
  /\ collects Messages.validateGameMovePayload (validateGameMovePayload v).
Proof.
  repeat match goal with |- _ /\ _ => split end.
  - unfold validateUserProfile, Messages.validateUserProfile. collects_all.
  - unfold validateFriendship, Messages.validateFriendship. collects_all.
  - unfold validateGameSession, Messages.validateGameSession. collects_all.
  - unfold validateTicTacToeGame, Messages.validateTicTacToeGame. collects_all.
  - unfold validateChatMessageRecord, Messages.validateChatMessageRecord. collects_all.
  - unfold validateRealtimeMessage, Messages.validateRealtimeMessage. collects_all.
  - unfold validateChatPayload, Messages.validateChatPayload. collects_all.
  - unfold validateGameMovePayload, Messages.validateGameMovePayload. collects_all.
Qed.


(** From a valid result to the tests that did not fire, last test first. *)
Ltac invert_chain H :=
  repeat
    (lazymatch type of H with
     | push_if _ _ _ = [] =>
         let Hc := fresh "Hc" in apply push_if_nil in H as [Hc H]
     | check_positions _ _ = [] =>
         let Hc := fresh "Hc" in apply check_positions_nil in H as [H Hc]
     | (if ?b then _ else _) = [] =>
         let Hb := fresh "Hb" in destruct b eqn:Hb
     end; try discriminate).

Ltac invert_valid H :=
  match type of H with
  | isValid (if ?guard then _ else _) = true =>
      let Hg := fresh "Hguard" in
      destruct guard eqn:Hg; [discriminate H|];
      cbv zeta in H; apply isValid_result_of in H; invert_chain H
  end.




(** An array that carries the fields of a valid profile as its own
    properties is accepted like the object with these fields. *)
Example array_with_profile_fields :
  match UserProfile_value 1 validUserProfile with
  | Object ref props =>
      @validateUserProfile Reference.platform (Array ref [] props)
      = {| isValid := true; errors := [] |}
  | _ => False
  end.
Proof. reflexivity. Qed.

(** ** Transforming validated records gives valid envelopes *)

Import UnifiedTypes.MessageTransformer.

Lemma guard_Object (ref : positive) (props : list (Str * Value)) :
  negb (truthy (Object ref props)) || negb (typeof_is (Object ref props) "object") = false.
Proof. unfold typeof_is. cbn. by rewrite eqb_refl. Qed.

(** A field that passed the test for required identifiers passes the test
    for optional ones. *)
Lemma uuid_optional (v : Value) :
  not_uuid v = false ->
  truthy v && (negb (typeof_is v "string") || negb (on_string isValidUUID v)) = false.
Proof.
  unfold not_uuid. destruct (truthy v), (typeof_is v "string"), (on_string isValidUUID v);
    done.
Qed.

Lemma valid_type (type : RealtimeMessageType) :
  negb (truthy (RealtimeMessageType_value type))
  || negb (isValidRealtimeMessageType (RealtimeMessageType_value type)) = false.
Proof. by destruct type. Qed.

(** What [toISOString] writes passes the date test, on a platform that
    reads back what it writes. *)
Lemma written_date_valid `{Platform} (now : Z) :
  Date_parse (Date_toISOString now) = Some now ->
  Date_toISOString now ≠ [] ->
  not_iso_date (String (Date_toISOString now)) = false.
Proof.
  intros Hparse Hne. unfold not_iso_date, typeof_is, isValidISODate. cbn.
  rewrite Hparse, !eqb_refl. apply eqb_neq in Hne. by rewrite Hne.
Qed.

(** Proves the envelope valid from the tests the record passed. *)
Ltac valid_envelope :=
  rewrite guard_Object; cbv zeta; apply isValid_result_of;
  repeat (apply push_if_nil; split);
  first [ assumption | reflexivity | apply valid_type | apply guard_Object
        | by apply uuid_optional ].

(** A game session that [validateGameSession] accepts is transformed by
    [gameSessionToRealtimeInvite] into an envelope that
    [validateRealtimeMessage] accepts. *)
Theorem invite_of_valid_session `{Platform} (ref ref' ref'' : positive)
    (g : GameSession.t)
    (Hvalid : isValid (validateGameSession (GameSession_value ref g)) = true) :
  isValid (validateRealtimeMessage
             (RealtimeMessage_value (GameInvitePayload_value ref'') ref'
                (gameSessionToRealtimeInvite g))) = true.
Proof.
  unfold validateGameSession in Hvalid. invert_valid Hvalid;
    unfold validateRealtimeMessage, RealtimeMessage_value; valid_envelope.
Qed.

Lemma invite_of_valid_session_witness :
  isValid (@validateRealtimeMessage Reference.platform
             (RealtimeMessage_value (GameInvitePayload_value 3) 2
                (gameSessionToRealtimeInvite validGameSession))) = true.
Proof.
  apply (@invite_of_valid_session Reference.platform 1 2 3 validGameSession).
  reflexivity.
Defined.

(** A friendship that [validateFriendship] accepts is transformed by
    [friendshipToRealtimeRequest], with any profile, into an envelope that
    [validateRealtimeMessage] accepts. *)
Theorem request_of_valid_friendship `{Platform} (ref ref' ref'' : positive)
    (f : Friendship.t) (p : UserProfile.t)
    (Hvalid : isValid (validateFriendship (Friendship_value ref f)) = true) :
  isValid (validateRealtimeMessage
             (RealtimeMessage_value (FriendRequestPayload_value ref'') ref'
                (friendshipToRealtimeRequest f p))) = true.
Proof.
  unfold validateFriendship in Hvalid. invert_valid Hvalid.
  unfold validateRealtimeMessage, RealtimeMessage_value; valid_envelope.
Qed.

Lemma request_of_valid_friendship_witness :
  isValid (@validateRealtimeMessage Reference.platform
             (RealtimeMessage_value (FriendRequestPayload_value 3) 2
                (friendshipToRealtimeRequest validFriendship validUserProfile))) = true.
Proof.
  apply (@request_of_valid_friendship Reference.platform 1 2 3 validFriendship
           validUserProfile).
  reflexivity.
Defined.

(** A chat record that [validateChatMessageRecord] accepts is transformed
    by [chatRecordToRealtime] into an envelope that [validateRealtimeMessage]
    accepts and whose payload [validateChatPayload] accepts. *)
Theorem chat_of_valid_record `{Platform} (ref ref' ref'' : positive)
    (r : ChatMessageRecord.t)
    (Hvalid : isValid (validateChatMessageRecord (ChatMessageRecord_value ref r)) = true) :
  isValid (validateRealtimeMessage
             (RealtimeMessage_value (ChatPayload_value ref'') ref'
                (chatRecordToRealtime r))) = true
  /\ isValid (validateChatPayload
                (ChatPayload_value ref'' (RealtimeMessage.payload (chatRecordToRealtime r))))
     = true.
Proof.
  unfold validateChatMessageRecord in Hvalid. invert_valid Hvalid. split.
  - unfold validateRealtimeMessage, RealtimeMessage_value; valid_envelope.
  - unfold validateChatPayload, ChatPayload_value; valid_envelope.
Qed.

Lemma chat_of_valid_record_witness :
  isValid (@validateRealtimeMessage Reference.platform
             (RealtimeMessage_value (ChatPayload_value 3) 2
                (chatRecordToRealtime validChatMessageRecord))) = true
  /\ isValid (validateChatPayload
                (ChatPayload_value 3
                   (RealtimeMessage.payload (chatRecordToRealtime validChatMessageRecord))))
     = true.
Proof.
  apply (@chat_of_valid_record Reference.platform 1 2 3 validChatMessageRecord).
  reflexivity.
Defined.

(** A game that [validateTicTacToeGame] accepts and a last move that is a
    number from 0 to 8 are transformed by [ticTacToeGameToRealtimeMove], on a
    platform whose [Date] reads back the instant it writes, into an envelope
    that [validateRealtimeMessage] accepts and whose payload
    [validateGameMovePayload] accepts. *)
Theorem move_of_valid_game `{Platform} (now : Z) (ref ref' : positive)
    (g : TicTacToeGame.t) (lastMove : Num)
    (Hvalid : isValid (validateTicTacToeGame (TicTacToeGame_value ref g)) = true)
    (Hlow : num_ltb lastMove (num_of_Z 0) = false)
    (Hhigh : num_ltb (num_of_Z 8) lastMove = false)
    (Hclock : Date_parse (Date_toISOString now) = Some now)
    (Hwritten : Date_toISOString now ≠ []) :
  isValid (validateRealtimeMessage
             (RealtimeMessage_value TypedGameMovePayload_value ref'
                (ticTacToeGameToRealtimeMove now g lastMove))) = true
  /\ isValid (validateGameMovePayload
                (TypedGameMovePayload_value
                   (RealtimeMessage.payload (ticTacToeGameToRealtimeMove now g lastMove))))
     = true.
Proof.
  pose proof (written_date_valid now Hclock Hwritten) as Hdate.
  unfold validateTicTacToeGame in Hvalid. invert_valid Hvalid. split.
  - unfold validateRealtimeMessage, RealtimeMessage_value; valid_envelope.
  - unfold validateGameMovePayload, TypedGameMovePayload_value, GameMovePayload_value.
    rewrite guard_Object. cbv zeta. apply isValid_result_of.
    change (strict_eq (get (Object 1 _) "gameType") (String (js "tic_tac_toe"))
            && truthy (get (Object 1 _) "moveData")) with true.
    cbv iota.
    repeat (apply push_if_nil; split);
      first [ assumption | reflexivity | apply guard_Object | idtac ].
    change (negb true || num_ltb lastMove (num_of_Z 0)
            || num_ltb (num_of_Z 8) lastMove = false).
    by rewrite Hlow, Hhigh.
Qed.

Lemma move_of_valid_game_witness :
  isValid (@validateRealtimeMessage Reference.platform
             (RealtimeMessage_value TypedGameMovePayload_value 2
                (@ticTacToeGameToRealtimeMove Reference.platform noon
                   validTicTacToeGame (num_of_Z 4)))) = true
  /\ isValid (validateGameMovePayload
                (TypedGameMovePayload_value
                   (RealtimeMessage.payload
                      (@ticTacToeGameToRealtimeMove Reference.platform noon
                         validTicTacToeGame (num_of_Z 4))))) = true.
Proof.
  apply (@move_of_valid_game Reference.platform noon 1 2 validTicTacToeGame (num_of_Z 4));
    try reflexivity.
  vm_compute. discriminate.
Defined.

Lemma not_uuid_String (s : Str) : not_uuid (String s) = negb (isValidUUID s).
Proof.
  unfold not_uuid, typeof_is. cbn [typeof truthy on_string]. rewrite eqb_refl.
  destruct s; [reflexivity|]. reflexivity.
Qed.

(** [createRealtimeMessage] stamps the envelope with the instant it reads
    and, on a platform whose [Date] reads back the instant it writes, the
    envelope passes [validateRealtimeMessage] exactly when the payload is an
    object or an array, the user id is a UUID and the message id, if given
    and not empty, is a UUID; the type and the timestamp never fail. *)
Theorem created_message_valid `{Platform} (now : Z) {T : Type}
    (payload_value : T -> Value) (ref : positive)
    (type : RealtimeMessageType) (payload : T) (userId : Str) (messageId : option Str)
    (Hclock : Date_parse (Date_toISOString now) = Some now)
    (Hwritten : Date_toISOString now ≠ []) :
  isValid (validateRealtimeMessage
             (RealtimeMessage_value payload_value ref
                (createRealtimeMessage now type payload userId messageId))) = true
  <-> object_shaped (payload_value payload) = true
      /\ isValidUUID userId = true
      /\ match messageId with
         | None => True
         | Some i => i = [] \/ isValidUUID i = true
         end.
Proof.
  pose proof (written_date_valid now Hclock Hwritten) as Hdate. split.
  - intros Hvalid. unfold validateRealtimeMessage in Hvalid. invert_valid Hvalid.
    change (not_uuid (String userId) = false) in Hc1.
    rewrite not_uuid_String, negb_false_iff in Hc1.
    split; [unfold object_shaped; apply negb_true_iff; exact Hc2|].
    split; [done|].
    destruct messageId as [i|]; [|done].
    change (truthy (String i)
            && (negb (typeof_is (String i) "string") || negb (isValidUUID i)) = false)
      in Hc.
    destruct i; [by left|right]. unfold typeof_is in Hc. cbn in Hc.
    rewrite eqb_refl in Hc. cbn in Hc. by apply negb_false_iff in Hc.
  - intros (Hpayload & Huser & Hid).
    unfold validateRealtimeMessage, RealtimeMessage_value.
    rewrite guard_Object; cbv zeta; apply isValid_result_of.
    repeat (apply push_if_nil; split); try reflexivity.
    + destruct messageId as [i|]; [|reflexivity].
      change (truthy (String i)
              && (negb (typeof_is (String i) "string") || negb (isValidUUID i)) = false).
      destruct Hid as [->|Hi]; [reflexivity|].
      rewrite Hi. unfold typeof_is. cbn. by rewrite eqb_refl, andb_false_r.
    + exact Hdate.
    + change (not_uuid (String userId) = false). by rewrite not_uuid_String, Huser.
    + unfold object_shaped in Hpayload. apply negb_true_iff in Hpayload.
      exact Hpayload.
    + apply valid_type.
Qed.

Lemma created_message_valid_witness :
  isValid (@validateRealtimeMessage Reference.platform
             (RealtimeMessage_value (ChatPayload_value 2) 1
                (@createRealtimeMessage Reference.platform noon _ chat validChatPayload
                   (js "123e4567-e89b-12d3-a456-426614174000") None))) = true
  <-> object_shaped (ChatPayload_value 2 validChatPayload) = true
      /\ isValidUUID (js "123e4567-e89b-12d3-a456-426614174000") = true
      /\ True.
Proof.
  apply (@created_message_valid Reference.platform noon _ (ChatPayload_value 2) 1 chat
           validChatPayload (js "123e4567-e89b-12d3-a456-426614174000") None).
  - reflexivity.
  - vm_compute. discriminate.
Defined.

(** ** Content, boards and missing fields *)

Lemma typeof_String (s : Str) : typeof_is (String s) "string" = true.
Proof. unfold typeof_is. apply eqb_refl. Qed.

Lemma blank_String (s : Str) : blank (String s) = forallb is_whitespace s.
Proof.
  unfold blank. rewrite typeof_String. cbn [negb orb on_string].
  rewrite orb_false_r. apply missing_guard.
Qed.

Lemma length_String (s : Str) :
  get (String s) "length" = Number (num_of_Z (Z.of_nat (List.length s))).
Proof. unfold get. by rewrite eqb_refl. Qed.

Lemma length_Array (ref : positive) (elems : list Value) (props : list (Str * Value)) :
  get (Array ref elems props) "length"
  = Number (num_of_Z (Z.of_nat (List.length elems))).
Proof. unfold get. by rewrite eqb_refl. Qed.

Lemma longer_than (n : Z) (s : Str) :
  on_number (fun m => num_ltb (num_of_Z n) m) (get (String s) "length") = true
  <-> (n < Z.of_nat (List.length s))%Z.
Proof.
  rewrite length_String. cbn [on_number num_ltb num_of_Z].
  by rewrite Qltb_lt, <- Zlt_Qlt.
Qed.

(** [validateChatMessageRecord] on a record whose content is a string:
    "Message content cannot be empty" is reported exactly when the content
    is empty or all white space, "Message content exceeds maximum length of
    5000 characters" exactly when it is not and has more than 5000 code
    units, so never both; content of exactly 5000 code units passes. *)
Theorem chat_record_content `{Platform} (message : Value) (content : Str)
    (Hobject : object_shaped message = true)
    (Hcontent : get message "content" = String content) :
  let reports m := In (js m) (errors (validateChatMessageRecord message)) in
  (reports "Message content cannot be empty"%string
   <-> forallb is_whitespace content = true)
  /\ (reports "Message content exceeds maximum length of 5000 characters"%string
      <-> forallb is_whitespace content = false
          /\ (5000 < Z.of_nat (List.length content))%Z)
  /\ ~ (reports "Message content cannot be empty"%string
        /\ reports "Message content exceeds maximum length of 5000 characters"%string).
Proof.
  cbv zeta.
  assert (In (js "Message content cannot be empty")
            (errors (validateChatMessageRecord message))
          <-> forallb is_whitespace content = true) as Hempty.
  { unfold validateChatMessageRecord.
    rewrite (object_shaped_guard _ Hobject) by reflexivity. cbv zeta.
    unfold result_of. cbn [errors]. rewrite Hcontent, blank_String.
    destruct (forallb is_whitespace content); reported. }
  assert (In (js "Message content exceeds maximum length of 5000 characters")
            (errors (validateChatMessageRecord message))
          <-> forallb is_whitespace content = false
              /\ (5000 < Z.of_nat (List.length content))%Z) as Hlong.
  { rewrite <- longer_than. unfold validateChatMessageRecord.
    rewrite (object_shaped_guard _ Hobject) by reflexivity. cbv zeta.
    unfold result_of. cbn [errors]. rewrite Hcontent, blank_String.
    destruct (forallb is_whitespace content); reported. }
  split; [exact Hempty|]. split; [exact Hlong|].
  rewrite Hempty, Hlong. intros [? [? _]]. congruence.
Qed.

Lemma chat_record_content_witness :
  let message := ChatMessageRecord_value 1 validChatMessageRecord in
  let reports m := In (js m) (errors (@validateChatMessageRecord Reference.platform message)) in
  (reports "Message content cannot be empty"%string
   <-> forallb is_whitespace (js "Hello friend!") = true)
  /\ (reports "Message content exceeds maximum length of 5000 characters"%string
      <-> forallb is_whitespace (js "Hello friend!") = false
          /\ (5000 < Z.of_nat (List.length (js "Hello friend!")))%Z)
  /\ ~ (reports "Message content cannot be empty"%string
        /\ reports "Message content exceeds maximum length of 5000 characters"%string).
Proof.
  apply (@chat_record_content Reference.platform
           (ChatMessageRecord_value 1 validChatMessageRecord) (js "Hello friend!"));
    reflexivity.
Defined.

Lemma In_check_positions_same (board : list Value) (errors : list Str) :
  In (js "Board positions must be 'X', 'O', or empty string")
    (check_positions board errors)
  <-> In (js "Board positions must be 'X', 'O', or empty string") errors
      \/ forallb board_cell board = false.
Proof.
  unfold board_cell. induction board as [|p board IH]; cbn.
  - intuition discriminate.
  - destruct (typeof_is p "string"); destruct (includes _ p); cbn;
      rewrite ?IH, ?in_app_iff; cbn; tauto.
Qed.

Lemma In_check_positions_other (x : string) (board : list Value) (errors : list Str) :
  x ≠ "Board positions must be 'X', 'O', or empty string"%string ->
  In (js x) (check_positions board errors) <-> In (js x) errors.
Proof.
  intros Hne. induction board as [|p board IH]; cbn; [done|].
  destruct (_ || _); [|done]. rewrite in_app_iff. cbn. split; [|tauto].
  intros [?|[Heq|[]]]; [done|]. apply js_inj in Heq. congruence.
Qed.

Lemma nine_elements (v : Value) :
  negb (isArray v) || negb (strict_eq (get v "length") (Number (num_of_Z 9))) = false
  <-> exists ref elems props,
        v = Array ref elems props /\ List.length elems = 9%nat.
Proof.
  destruct v as [| |b|n|s|r l q|r l]; cbn [isArray negb orb];
    try (split; [discriminate | by intros (? & ? & ? & ? & _)]).
  rewrite length_Array. cbn [strict_eq num_eqb num_of_Z]. rewrite negb_false_iff.
  rewrite Qeq_bool_iff, inject_Z_injective. split.
  - intros Hlen. exists r, l, q. split; [done|lia].
  - intros (? & ? & ? & [= <- <- <-] & ->). done.
Qed.

(** The board test of [validateTicTacToeGame]: "Tic-tac-toe board must have
    exactly 9 positions" is reported exactly when [board_state] is not an
    array of 9 elements, and "Board positions must be 'X', 'O', or empty
    string" exactly when it is an array of 9 elements one of which is not
    one of these three strings; so a board passes both exactly when it is
    an array of 9 cells. *)
Theorem board_test (game : Value) (Hobject : object_shaped game = true) :
  let reports m := In (js m) (errors (validateTicTacToeGame game)) in
  let nine := exists ref cells props,
                get game "board_state" = Array ref cells props
                /\ List.length cells = 9%nat in
  (reports "Tic-tac-toe board must have exactly 9 positions"%string <-> ~ nine)
  /\ (reports "Board positions must be 'X', 'O', or empty string"%string
      <-> exists ref cells props,
            get game "board_state" = Array ref cells props
            /\ List.length cells = 9%nat
            /\ forallb board_cell cells = false).
Proof.
  cbv zeta. rewrite <- nine_elements. unfold validateTicTacToeGame.
  rewrite (object_shaped_guard _ Hobject) by reflexivity. cbv zeta.
  unfold result_of. cbn [errors].
  destruct (negb (isArray (get game "board_state")) || _) eqn:Hnine.
  - split; [reported|].
    rewrite In_push_if_other, In_push_if_other, In_push_if_other by discriminate.
    cbn [In]. split; [done|]. intros (r & cells & props & Hboard & Hlen & _).
    assert (exists ref elems props, get game "board_state" = Array ref elems props
                                    /\ List.length elems = 9%nat) as Hex by eauto.
    apply nine_elements in Hex. congruence.
  - apply nine_elements in Hnine as (r & cells & props & Hboard & Hlen).
    rewrite Hboard.
    cbn [elements]. split.
    + rewrite In_push_if_other, In_check_positions_other, In_push_if_other
        by discriminate. cbn [In]. split; [done|]. intros Hno. by destruct Hno.
    + rewrite In_push_if_other by discriminate.
      rewrite In_check_positions_same, In_push_if_other by discriminate. cbn [In].
      split.
      * intros [[]|Hbad]. eauto 6.
      * intros (r' & cells' & props' & [= <- <- <-] & _ & Hbad). by right.
Qed.

Lemma board_test_witness :
  let game := TicTacToeGame_value 1 validTicTacToeGame in
  let reports m := In (js m) (errors (validateTicTacToeGame game)) in
  let nine := exists ref cells props,
                get game "board_state" = Array ref cells props
                /\ List.length cells = 9%nat in
  (reports "Tic-tac-toe board must have exactly 9 positions"%string <-> ~ nine)
  /\ (reports "Board positions must be 'X', 'O', or empty string"%string
      <-> exists ref cells props,
            get game "board_state" = Array ref cells props
            /\ List.length cells = 9%nat
            /\ forallb board_cell cells = false).
Proof.
  apply (board_test (TicTacToeGame_value 1 validTicTacToeGame)). reflexivity.
Defined.

(** A field that is [string | null] in the interface and whose test
    compares with [null] must be present: without [avatar_url],
    [winner_id] or [read_at] (the field reads as [undefined]) the record is
    invalid, and an object is reported with the message of that field. *)
Theorem nullable_field_required `{Platform} (v : Value) :
  (get v "avatar_url" = Undefined ->
   isValid (validateUserProfile v) = false
   /\ (object_shaped v = true ->
       In (js "Avatar URL must be a string or null") (errors (validateUserProfile v))))
  /\ (get v "winner_id" = Undefined ->
      isValid (validateGameSession v) = false
      /\ (object_shaped v = true ->
          In (js "Invalid UUID format for winner_id") (errors (validateGameSession v))))
  /\ (get v "read_at" = Undefined ->
      isValid (validateChatMessageRecord v) = false
      /\ (object_shaped v = true ->
          In (js "Invalid date format for read_at")
            (errors (validateChatMessageRecord v)))).
Proof.
  repeat match goal with |- _ /\ _ => split end; intros Hmissing; split.
  - destruct (isValid (validateUserProfile v)) eqn:Hvalid; [|done].
    unfold validateUserProfile in Hvalid. invert_valid Hvalid.
    rewrite Hmissing in Hc1. discriminate Hc1.
  - intros Hobject. unfold validateUserProfile.
    rewrite (object_shaped_guard _ Hobject) by reflexivity. cbv zeta.
    unfold result_of. cbn [errors]. rewrite Hmissing.
    change (negb (strict_eq Undefined Null) && negb (typeof_is Undefined "string"))
      with true. reported.
  - destruct (isValid (validateGameSession v)) eqn:Hvalid; [|done].
    unfold validateGameSession in Hvalid. invert_valid Hvalid;
      match goal with
      | Hc : negb (strict_eq (get v "winner_id") Null) && _ = false |- _ =>
          rewrite Hmissing in Hc; discriminate Hc
      end.
  - intros Hobject. unfold validateGameSession.
    rewrite (object_shaped_guard _ Hobject) by reflexivity. cbv zeta.
    unfold result_of. cbn [errors]. rewrite Hmissing.
    change (negb (strict_eq Undefined Null)
            && (negb (typeof_is Undefined "string")
                || negb (on_string isValidUUID Undefined))) with true.
    destruct (strict_eq (get v "status") (String (js "completed"))); reported.
  - destruct (isValid (validateChatMessageRecord v)) eqn:Hvalid; [|done].
    unfold validateChatMessageRecord in Hvalid. invert_valid Hvalid.
    rewrite Hmissing in Hc. discriminate Hc.
  - intros Hobject. unfold validateChatMessageRecord.
    rewrite (object_shaped_guard _ Hobject) by reflexivity. cbv zeta.
    unfold result_of. cbn [errors]. rewrite Hmissing.
    change (negb (strict_eq Undefined Null)
            && (negb (typeof_is Undefined "string")
                || negb (on_string isValidISODate Undefined))) with true.
    reported.
Qed.

(** ** Identifiers, move payloads, profiles *)

Lemma class_test_upper (cl : CharClass) (c : N) :
  class_test cl (ascii_upper c) = class_test cl c.
Proof.
  unfold ascii_upper. destruct ((97 <=? c) && (c <=? 122))%N eqn:Hletter; [|done].
  apply andb_true_iff in Hletter as [Hlow%N.leb_le Hhigh%N.leb_le].
  apply eq_true_iff_eq. unfold class_test, between.
  destruct cl; rewrite ?orb_true_iff, ?andb_true_iff, ?N.leb_le, ?N.eqb_eq; lia.
Qed.

Lemma regex_test_upper (pattern : list CharClass) (s : Str) :
  regex_test pattern (List.map ascii_upper s) = regex_test pattern s.
Proof.
  revert s. induction pattern as [|cl pattern IH]; intros [|c s]; cbn; try done.
  by rewrite class_test_upper, IH.
Qed.

(** [isValidUUID] does not depend on the case of the letters, and a string
    it accepts has 36 code units, hyphens at the positions 8, 13, 18 and 23,
    and a version digit from 1 to 5 at position 14 (so the nil UUID and the
    versions above 5 are rejected). *)
Theorem isValidUUID_shape (s : Str) :
  isValidUUID (List.map ascii_upper s) = isValidUUID s
  /\ (isValidUUID s = true ->
      List.length s = 36%nat
      /\ s !! 8%nat = Some 45%N /\ s !! 13%nat = Some 45%N
      /\ s !! 18%nat = Some 45%N /\ s !! 23%nat = Some 45%N
      /\ exists v, s !! 14%nat = Some v /\ (49 <= v <= 53)%N).
Proof.
  split; [apply regex_test_upper|].
  unfold isValidUUID, uuidRegex. cbn [repeat app]. intros Hs.
  do 36 (destruct s as [|? s]; [discriminate Hs|];
         cbn [regex_test] in Hs; apply andb_true_iff in Hs as [? Hs]).
  destruct s; [|discriminate Hs].
  repeat match goal with
         | Hd : class_test Dash ?c = true |- _ => apply N.eqb_eq in Hd; subst c
         end.
  repeat split.
  match goal with
  | Hv : class_test Digit1to5 ?c = true |- _ =>
      exists c; split; [reflexivity|];
      unfold class_test, between in Hv; apply andb_true_iff in Hv as [?%N.leb_le ?%N.leb_le];
      lia
  end.
Qed.

Lemma not_uuid_iff (v : Value) :
  not_uuid v = false <-> exists s, v = String s /\ isValidUUID s = true.
Proof.
  destruct v as [| |b|n|s|r l q|r l];
    try (split; [ unfold not_uuid, typeof_is; cbn [typeof on_string];
                  rewrite ?eqb_js; cbn; rewrite ?orb_true_r; discriminate
                | by intros (? & ? & _)]).
  rewrite not_uuid_String, negb_false_iff. split; [eauto|].
  by intros (? & [= <-] & ?).
Qed.

Lemma game_type_iff (v : Value) :
  negb (truthy v) || negb (isValidGameType v) = false
  <-> v = String (js "tic_tac_toe").
Proof.
  unfold isValidGameType, includes.
  destruct v as [| |b|n|s|r l q|r l]; cbn [existsb];
    try (split; [rewrite ?orb_true_r; discriminate | discriminate]).
  rewrite orb_false_r, orb_false_iff, !negb_false_iff. split.
  - intros [_ Heq]. apply eqb_eq in Heq. by subst.
  - intros [= ->]. done.
Qed.

Lemma object_guard_iff (v : Value) :
  negb (truthy v) || negb (typeof_is v "object") = false <-> object_shaped v = true.
Proof. unfold object_shaped, typeof_is. by rewrite negb_true_iff. Qed.

Lemma blank_iff (v : Value) :
  blank v = false <-> exists c, v = String c /\ forallb is_whitespace c = false.
Proof.
  destruct v as [| |b|n|s|r l q|r l];
    try (split; [ unfold blank, typeof_is; cbn [typeof on_string];
                  rewrite ?eqb_js; cbn; rewrite ?orb_true_r; discriminate
                | by intros (? & ? & _)]).
  rewrite blank_String. split; [eauto|]. by intros (? & [= <-] & ?).
Qed.

Lemma message_type_iff (v : Value) :
  negb (truthy v) || negb (isValidMessageType v) = false
  <-> isValidMessageType v = true.
Proof.
  rewrite orb_false_iff, !negb_false_iff. split; [tauto|]. intros Hv. split; [|done].
  unfold isValidMessageType, includes in Hv.
  destruct v as [| |b|n|s|r l q|r l]; try discriminate.
  destruct s; [discriminate Hv|reflexivity].
Qed.

(** [validateChatPayload] accepts exactly the objects whose content is a
    string that is not empty or all white space, whose receiver is a UUID
    and whose message type is one of the three; "Content must be a non-empty
    string" is reported exactly for a blank content. The length of the
    content is not bounded: a payload stays accepted when its content is
    replaced by any string that is not blank, however long, whereas the
    record validator reports every such content of more than 5000 code
    units. *)
Theorem chat_payload_content `{Platform} (payload : Value) :
  (isValid (validateChatPayload payload) = true
   <-> object_shaped payload = true
       /\ (exists c, get payload "content" = String c
                     /\ forallb is_whitespace c = false)
       /\ (exists r, get payload "receiverId" = String r /\ isValidUUID r = true)
       /\ isValidMessageType (get payload "messageType") = true)
  /\ (forall c, object_shaped payload = true -> get payload "content" = String c ->
        In (js "Content must be a non-empty string") (errors (validateChatPayload payload))
        <-> forallb is_whitespace c = true)
  /\ (forall (ref : positive) (p : ChatPayload.t) (c : Str),
        isValid (validateChatPayload (ChatPayload_value ref p)) = true ->
        forallb is_whitespace c = false ->
        isValid (validateChatPayload
                   (ChatPayload_value ref
                      {| ChatPayload.content := c;
                         ChatPayload.receiverId := ChatPayload.receiverId p;
                         ChatPayload.messageType := ChatPayload.messageType p |}))
        = true)
  /\ (forall (ref : positive) (r : ChatMessageRecord.t),
        forallb is_whitespace (ChatMessageRecord.content r) = false ->
        (5000 < Z.of_nat (List.length (ChatMessageRecord.content r)))%Z ->
        In (js "Message content exceeds maximum length of 5000 characters")
          (errors (validateChatMessageRecord (ChatMessageRecord_value ref r)))).
Proof.
  assert (forall v, isValid (validateChatPayload v) = true
            <-> object_shaped v = true
                /\ (exists c, get v "content" = String c
                              /\ forallb is_whitespace c = false)
                /\ (exists r, get v "receiverId" = String r /\ isValidUUID r = true)
                /\ isValidMessageType (get v "messageType") = true) as Hiff.
  { intros v. split.
    - intros Hvalid. unfold validateChatPayload in Hvalid. invert_valid Hvalid.
      apply object_guard_iff in Hguard. apply message_type_iff in Hc.
      apply not_uuid_iff in Hc0. apply blank_iff in Hc1. done.
    - intros (Hobject & Hcontent & Hreceiver & Htype). unfold validateChatPayload.
      apply object_guard_iff in Hobject. rewrite Hobject. cbv zeta.
      apply isValid_result_of. repeat (apply push_if_nil; split); try reflexivity.
      + by apply message_type_iff.
      + by apply not_uuid_iff.
      + by apply blank_iff. }
  split; [apply Hiff|]. split; [|split].
  - intros c Hobject Hcontent. unfold validateChatPayload.
    rewrite (object_shaped_guard _ Hobject) by reflexivity. cbv zeta.
    unfold result_of. cbn [errors]. rewrite Hcontent, blank_String.
    destruct (forallb is_whitespace c); reported.
  - intros ref p c Hvalid Hc. apply Hiff in Hvalid as (_ & _ & Hreceiver & Htype).
    apply Hiff. split; [reflexivity|]. split; [by exists c|]. split; assumption.
  - intros ref r Hc Hlong. apply longer_than in Hlong.
    unfold validateChatMessageRecord.
    rewrite (object_shaped_guard (ChatMessageRecord_value ref r) eq_refl)
      by reflexivity.
    cbv zeta. unfold result_of. cbn [errors].
    change (get (ChatMessageRecord_value ref r) "content")
      with (String (ChatMessageRecord.content r)).
    rewrite blank_String, Hc, Hlong. reported.
Qed.

Lemma chat_payload_content_witness :
  let long := repeat 120%N (Z.to_nat 6000) in
  isValid (validateChatPayload
             (ChatPayload_value 1
                {| ChatPayload.content := long;
                   ChatPayload.receiverId := ChatPayload.receiverId validChatPayload;
                   ChatPayload.messageType := ChatPayload.messageType validChatPayload |}))
  = true
  /\ In (js "Message content exceeds maximum length of 5000 characters")
       (errors (@validateChatMessageRecord Reference.platform
                  (ChatMessageRecord_value 1
                     {| ChatMessageRecord.id := ChatMessageRecord.id validChatMessageRecord;
                        ChatMessageRecord.sender_id :=
                          ChatMessageRecord.sender_id validChatMessageRecord;
                        ChatMessageRecord.receiver_id :=
                          ChatMessageRecord.receiver_id validChatMessageRecord;
                        ChatMessageRecord.content := long;
                        ChatMessageRecord.message_type := text;
                        ChatMessageRecord.created_at :=
                          ChatMessageRecord.created_at validChatMessageRecord;
                        ChatMessageRecord.read_at := None |}))).
Proof.
  cbv zeta.
  destruct (@chat_payload_content Reference.platform
              (ChatPayload_value 1 validChatPayload)) as (_ & _ & Hany & Hrecord).
  split.
  - apply Hany; reflexivity.
  - apply Hrecord; [reflexivity|]. vm_compute. reflexivity.
Defined.

Lemma in_range_iff (n : Num) :
  num_ltb n (num_of_Z 0) = false /\ num_ltb (num_of_Z 8) n = false
  <-> n = NaN \/ exists q, n = Finite q /\ (0 <= q <= 8)%Q.
Proof.
  destruct n as [|[|]|q]; cbn [num_ltb num_of_Z].
  - split; [by left|done].
  - split; [by intros [? _]|]. by intros [?|(? & ? & _)].
  - split; [by intros [_ ?]|]. by intros [?|(? & ? & _)].
  - change (inject_Z 0) with 0%Q. change (inject_Z 8) with 8%Q.
    rewrite <- !not_true_iff_false, !Qltb_lt. split.
    + intros [Hlow Hhigh]. right. exists q. split; [done|].
      split; by apply Qnot_lt_le.
    + intros [?|(q' & [= <-] & Hlow & Hhigh)]; [done|].
      split; by apply Qle_not_lt.
Qed.

(** What [validateGameMovePayload] accepts: exactly the objects whose
    session id is a UUID, whose game type is ["tic_tac_toe"], and whose move
    data is an object with a position that is NaN or a number from 0 to 8,
    integral or not, a UUID as player and an array of 9 elements as board
    state. A payload of any other game type is invalid, and the cells of the
    board are not looked at. *)
Theorem move_payload_valid_iff (payload : Value) :
  isValid (validateGameMovePayload payload) = true
  <-> object_shaped payload = true
      /\ (exists s, get payload "sessionId" = String s /\ isValidUUID s = true)
      /\ get payload "gameType" = String (js "tic_tac_toe")
      /\ object_shaped (get payload "moveData") = true
      /\ (exists n, get (get payload "moveData") "position" = Number n
                    /\ (n = NaN \/ exists q, n = Finite q /\ (0 <= q <= 8)%Q))
      /\ (exists p, get (get payload "moveData") "player" = String p
                    /\ isValidUUID p = true)
      /\ (exists ref cells props,
            get (get payload "moveData") "boardState" = Array ref cells props
            /\ List.length cells = 9%nat).
Proof.
  split.
  - intros Hvalid. unfold validateGameMovePayload in Hvalid. invert_valid Hvalid.
    + apply object_guard_iff in Hguard, Hc2. apply not_uuid_iff in Hc0, Hc4.
      apply game_type_iff in Hc3. apply position_test in Hc1.
      destruct Hc1 as (n & Hn & Hrange). apply in_range_iff in Hrange.
      apply nine_elements in Hc. eauto 10.
    + apply game_type_iff in Hc0. apply object_guard_iff in Hc.
      rewrite Hc0 in Hb. cbn [strict_eq] in Hb. rewrite eqb_refl in Hb.
      unfold object_shaped in Hc. apply negb_true_iff, orb_false_iff in Hc as [Ht _].
      apply negb_false_iff in Ht. rewrite Ht in Hb. discriminate Hb.
  - intros (Hobject & Hsession & Hkind & Hmove & Hposition & Hplayer & Hboard).
    unfold validateGameMovePayload.
    apply object_guard_iff in Hobject. rewrite Hobject. cbv zeta.
    apply isValid_result_of.
    assert (truthy (get payload "moveData") = true) as Htruthy.
    { unfold object_shaped in Hmove.
      apply negb_true_iff, orb_false_iff in Hmove as [Ht _].
      by apply negb_false_iff in Ht. }
    assert (strict_eq (get payload "gameType") (String (js "tic_tac_toe"))
            && truthy (get payload "moveData") = true) as ->.
    { rewrite Hkind, Htruthy. cbn [strict_eq]. by rewrite eqb_refl. }
    repeat (apply push_if_nil; split); try reflexivity.
    + by apply nine_elements.
    + by apply not_uuid_iff.
    + apply position_test. destruct Hposition as (n & Hn & Hrange).
      apply in_range_iff in Hrange. eauto.
    + by apply object_guard_iff.
    + by apply game_type_iff.
    + by apply not_uuid_iff.
Qed.

(** [validateUserProfile] on a profile whose display name and email are
    strings: "Display name cannot be empty" is reported exactly when the
    name is empty or all white space, and "Invalid email format" exactly
    when [isValidEmail] rejects the email. *)
Theorem profile_name_and_email `{Platform} (profile : Value) (name email : Str)
    (Hobject : object_shaped profile = true)
    (Hname : get profile "display_name" = String name)
    (Hemail : get profile "email" = String email) :
  (In (js "Display name cannot be empty") (errors (validateUserProfile profile))
   <-> forallb is_whitespace name = true)
  /\ (In (js "Invalid email format") (errors (validateUserProfile profile))
      <-> isValidEmail email = false).
Proof.
  unfold validateUserProfile.
  rewrite (object_shaped_guard _ Hobject) by reflexivity. cbv zeta.
  unfold result_of. cbn [errors]. rewrite Hname, Hemail, blank_String.
  assert (negb (truthy (String email)) || negb (typeof_is (String email) "string")
          || negb (on_string isValidEmail (String email))
          = negb (isValidEmail email)) as ->.
  { rewrite typeof_String. destruct email; reflexivity. }
  destruct (forallb is_whitespace name); destruct (isValidEmail email);
    cbn [negb]; split; reported.
Qed.

Lemma profile_name_and_email_witness :
  (In (js "Display name cannot be empty")
     (errors (@validateUserProfile Reference.platform (UserProfile_value 1 validUserProfile)))
   <-> forallb is_whitespace (js "Test User") = true)
  /\ (In (js "Invalid email format")
        (errors (@validateUserProfile Reference.platform (UserProfile_value 1 validUserProfile)))
      <-> isValidEmail (js "test@example.com") = false).
Proof.
  apply (@profile_name_and_email Reference.platform (UserProfile_value 1 validUserProfile)
           (js "Test User") (js "test@example.com")); reflexivity.
Defined.

(** From envelope to record: a chat envelope that [validateRealtimeMessage]
    accepts, with a payload that [validateChatPayload] accepts, is stored by
    [realtimeChatToRecord] under a generated UUID as a record that
    [validateChatMessageRecord] accepts, provided the sender is not the
    receiver and the content has at most 5000 code units, the two tests of
    the record validator that the envelope validators do not make. *)
Theorem record_of_valid_chat `{Platform} (ref ref' ref'' : positive)
    (m : RealtimeMessage.t ChatPayload.t) (generatedId : Str)
    (Henvelope : isValid (validateRealtimeMessage
                            (RealtimeMessage_value (ChatPayload_value ref') ref m)) = true)
    (Hpayload : isValid (validateChatPayload
                           (ChatPayload_value ref' (RealtimeMessage.payload m))) = true)
    (Hid : isValidUUID generatedId = true)
    (Hother : RealtimeMessage.userId m ≠ ChatPayload.receiverId (RealtimeMessage.payload m))
    (Hlength : (Z.of_nat (List.length (ChatPayload.content (RealtimeMessage.payload m)))
                <= 5000)%Z) :
  isValid (validateChatMessageRecord
             (ChatMessageRecord_value ref''
                (completeDraft (realtimeChatToRecord m generatedId)
                   (RealtimeMessage.timestamp m) None))) = true.
Proof.
  unfold validateRealtimeMessage in Henvelope. invert_valid Henvelope.
  unfold validateChatPayload in Hpayload. invert_valid Hpayload.
  unfold validateChatMessageRecord, ChatMessageRecord_value.
  rewrite guard_Object. cbv zeta. apply isValid_result_of.
  apply push_if_nil; split; [reflexivity|].
  apply push_if_nil; split; [assumption|].
  apply push_if_nil; split; [assumption|].
  change (blank (get (Object ref'' _) "content"))
    with (blank (String (ChatPayload.content (RealtimeMessage.payload m)))).
  change (blank (String (ChatPayload.content (RealtimeMessage.payload m))) = false)
    in Hc6.
  rewrite Hc6.
  repeat (apply push_if_nil; split); try assumption; try reflexivity.
  - change (on_number (fun n => num_ltb (num_of_Z 5000) n)
              (get (String (ChatPayload.content (RealtimeMessage.payload m))) "length")
            = false).
    apply not_true_iff_false. rewrite longer_than. lia.
  - change (eqb (RealtimeMessage.userId m)
              (ChatPayload.receiverId (RealtimeMessage.payload m)) = false).
    by apply eqb_neq.
  - change (not_uuid (String generatedId) = false).
    by rewrite not_uuid_String, Hid.
Qed.

Lemma record_of_valid_chat_witness :
  isValid (@validateChatMessageRecord Reference.platform
             (ChatMessageRecord_value 3
                (completeDraft
                   (MessageTransformer.realtimeChatToRecord validRealtimeChatMessage
                      (js "123e4567-e89b-12d3-a456-426614174005"))
                   (RealtimeMessage.timestamp validRealtimeChatMessage) None))) = true.
Proof.
  apply (@record_of_valid_chat Reference.platform 1 2 3 validRealtimeChatMessage
           (js "123e4567-e89b-12d3-a456-426614174005")); try reflexivity.
  - intros Heq. apply js_inj in Heq. discriminate Heq.
  - vm_compute. discriminate.
Defined.

(** ** What a valid record guarantees *)



End ValidatorLaws.
